(** * base-server-audit.js: the audit logger and the server bootstrap

    A shallow embedding of [src/njs-app/src/base-server-audit.js]
    ([auditLogger] with its two serializers and its [audit] callback,
    [startServer] with its two uncaught-exception handlers), followed by
    the properties the specification states about them.  The file holds
    [auditLogger] twice (the copy taken from restify's audit plugin and the
    one next to [startServer]); the two bodies are the same, and one
    embedding stands for both.

    Conventions of the embedding.
    - JavaScript values the code only passes around (method, url, status
      code, captured body, error) are [value]s: the primitives, arrays, and
      objects with an ordered list of own properties.
    - Numbers with an integer value (hrtime components, millisecond time
      stamps, status codes) are [Z].  The arithmetic of the hrtime
      conversion is done in doubles ([Double]): each operation rounds its
      exact result to binary64.
    - An object literal or an object filled by assignment is the list of
      its own properties in the order JavaScript enumerates them: array
      indices first, ascending, then the other keys in insertion order.
      Assigning to an existing key keeps its place; assigning to
      [__proto__] creates no own property.
    - Calls into restify, bunyan and the process are recorded as [event]s of
      a trace, in program order.  What restify and Node accept as
      arguments is a parameter ([Runtime]). *)

From Stdlib Require Import List String ZArith NArith DecimalString Permutation.
From Stdlib Require Import QArith Qround Qabs Qpower Bool Lia Lqa.
From Stdlib Require SpecFloat.
Import ListNotations.
Local Open Scope string_scope.
Local Open Scope list_scope.
Local Open Scope Z_scope.

(** ** JavaScript values *)

Module JS.

(** What [instanceof HttpError] looks at: the prototype chain of an object. *)
Inductive proto : Type :=
| ObjectProto
| HttpErrorProto.

(** The primitive values. *)
Inductive prim : Type :=
| PUndefined
| PNull
| PBool (b : bool)
| PNum (n : Z)
| PNaN
| PInf (neg : bool)
| PStr (s : string).

#[local] Set Warnings "-register-all".

Inductive value : Type :=
| VPrim (p : prim)
| VArray (elems : list value)
| VObject (p : proto) (fields : list (string * value)).

Coercion VPrim : prim >-> value.

Abbreviation VUndefined := (VPrim PUndefined).
Abbreviation VNull := (VPrim PNull).
Abbreviation VBool b := (VPrim (PBool b)).
Abbreviation VNum n := (VPrim (PNum n)).
Abbreviation VNaN := (VPrim PNaN).
Abbreviation VStr s := (VPrim (PStr s)).

Definition props : Type := list (string * value).

(** [!p] is [negb (truthy_prim p)]: the falsy values are [undefined],
    [null], [false], [0], [NaN] and the empty string. *)
Definition truthy_prim (p : prim) : bool :=
  match p with
  | PUndefined | PNull | PNaN => false
  | PInf _ => true
  | PBool b => b
  | PNum n => negb (n =? 0)
  | PStr s => negb (String.eqb s "")
  end.

Definition truthy (v : value) : bool :=
  match v with
  | VPrim p => truthy_prim p
  | VArray _ | VObject _ _ => true
  end.

(** [typeof v]. *)
Definition typeof (v : value) : string :=
  match v with
  | VUndefined => "undefined"
  | VNull => "object"
  | VBool _ => "boolean"
  | VNum _ | VNaN | VPrim (PInf _) => "number"
  | VStr _ => "string"
  | VArray _ | VObject _ _ => "object"
  end.

(** [v === true]. *)
Definition strict_eq_true (v : value) : bool :=
  match v with
  | VBool true => true
  | _ => false
  end.

(** [v instanceof HttpError]. *)
Definition instanceof_HttpError (v : value) : bool :=
  match v with
  | VObject HttpErrorProto _ => true
  | _ => false
  end.

(** Own-property lookup in a property list: [o[k]] is [undefined] when
    [k] is not a key. *)
Fixpoint lookup (o : props) (k : string) : option value :=
  match o with
  | [] => None
  | (k', v) :: o' => if String.eqb k' k then Some v else lookup o' k
  end.

Definition get_prop (o : props) (k : string) : value :=
  match lookup o k with
  | Some v => v
  | None => VUndefined
  end.

(** [k in o] for an object without inherited keys of that name. *)
Definition has_prop (o : props) (k : string) : bool :=
  match lookup o k with
  | Some _ => true
  | None => false
  end.

(** An array index: the canonical decimal form of an integer below
    [2^32 - 1].  Own keys of this form are enumerated before the others,
    in ascending order. *)
Definition array_index (k : string) : option N :=
  match NilEmpty.uint_of_string k with
  | Some u =>
      let i := N.of_uint u in
      if String.eqb (NilEmpty.string_of_uint (N.to_uint i)) k
         && (i <? 4294967295)%N
      then Some i
      else None
  | None => None
  end.

(** Overwrite the value of the existing key [k]; its place is kept. *)
Fixpoint replace_prop (o : props) (k : string) (v : value) : props :=
  match o with
  | [] => []
  | (k', v') :: o' =>
      if String.eqb k' k then (k', v) :: o' else (k', v') :: replace_prop o' k v
  end.

(** Put the new key [k], the array index [i], after the smaller indices. *)
Fixpoint insert_index (o : props) (i : N) (k : string) (v : value) : props :=
  match o with
  | [] => [(k, v)]
  | (k', v') :: o' =>
      match array_index k' with
      | Some j =>
          if (j <? i)%N then (k', v') :: insert_index o' i k v
          else (k, v) :: o
      | None => (k, v) :: o
      end
  end.

(** Create or update the own data property [k]: an existing key keeps its
    place, a new array index goes among the indices, any other new key
    goes last. *)
Definition put_prop (o : props) (k : string) (v : value) : props :=
  if has_prop o k then replace_prop o k v
  else
    match array_index k with
    | Some i => insert_index o i k v
    | None => o ++ [(k, v)]
    end.

(** [o[k] = v] on an object made by [{}].  Its prototype is
    [Object.prototype], where [__proto__] is an accessor: assigning to
    that key calls the setter (which ignores a primitive and takes an
    object or [null] as the new prototype) and creates no own property. *)
Definition set_prop (o : props) (k : string) (v : value) : props :=
  if String.eqb k "__proto__" then o else put_prop o k v.

(** [Object.keys(o)]. *)
Definition keys (o : props) : list string := map fst o.

(** [v.k] for a value that is not [null] or [undefined]: a primitive has
    none of the properties this program reads. *)
Definition member (v : value) (k : string) : value :=
  match v with
  | VObject _ o => get_prop o k
  | _ => VUndefined
  end.

(** A function argument that the caller documents as an object of shape
    [T], but that JavaScript lets be any primitive as well. *)
Inductive arg (T : Type) : Type :=
| Prim (p : prim)
| Obj (x : T).
Arguments Prim {T} p.
Arguments Obj {T} x.

Definition arg_truthy {T : Type} (a : arg T) : bool :=
  match a with
  | Prim p => truthy_prim p
  | Obj _ => true
  end.

(** [a.f] where [f] is a field of [T]; on a primitive the field is
    [undefined]. *)
Definition field {T : Type} (f : T -> value) (a : arg T) : value :=
  match a with
  | Prim _ => VUndefined
  | Obj x => f x
  end.

End JS.
Import JS.

(** ** JavaScript numbers: IEEE 754 binary64

    A finite number is the rational it stands for.  Every operation gives
    the exact result rounded to the nearest double, ties to even, and
    infinity from [2^1024] on.  The sign of zero is not kept. *)

Module Double.

(** [2^z]. *)
Definition pow2 (z : Z) : Q := Qpower 2 z.

(** [floor (log2 x)] for a positive [x]. *)
Definition ilog2 (x : Q) : Z :=
  let e0 := Z.log2 (Qnum x) - Z.log2 (Zpos (Qden x)) in
  if Qle_bool (pow2 e0) x then e0 else e0 - 1.

(** The nearest integer, ties to even. *)
Definition rne (y : Q) : Z :=
  let f := Qfloor y in
  match Qcompare (y - inject_Z f) (1 # 2) with
  | Lt => f
  | Gt => f + 1
  | Eq => if Z.even f then f else f + 1
  end.

(** The nearest multiple of the unit in the last place of [x]: 53
    significant bits, exponent not below -1022 (subnormals). *)
Definition round_q (x : Q) : Q :=
  if Qeq_bool x 0 then 0%Q
  else
    let e := Z.max (ilog2 (Qabs x)) (-1022) in
    let u := pow2 (e - 52) in
    (inject_Z (rne (x / u)) * u)%Q.

Inductive number : Type :=
| Finite (q : Q)
| Infinite (neg : bool)
| NotANumber.

Definition negative (q : Q) : bool := Qnum q <? 0.

Definition is_zero (q : Q) : bool := Qeq_bool q 0.

(** The double for the exact result [x]. *)
Definition rnd (x : Q) : number :=
  let r := round_q x in
  if Qle_bool (pow2 1024) (Qabs r) then Infinite (negative r) else Finite r.

(** The number with the integer value [z]; for [|z| <= 2^53] that is [z]
    itself. *)
Definition of_Z (z : Z) : number := rnd (inject_Z z).

(** [x * y]. *)
Definition mul (x y : number) : number :=
  match x, y with
  | Finite a, Finite b => rnd (a * b)
  | Finite a, Infinite s | Infinite s, Finite a =>
      if is_zero a then NotANumber else Infinite (xorb s (negative a))
  | Infinite s, Infinite s' => Infinite (xorb s s')
  | _, _ => NotANumber
  end.

(** [x / y]. *)
Definition div (x y : number) : number :=
  match x, y with
  | Finite a, Finite b =>
      if is_zero b then
        if is_zero a then NotANumber else Infinite (negative a)
      else rnd (a / b)
  | Finite _, Infinite _ => Finite 0
  | Infinite s, Finite b => Infinite (xorb s (negative b))
  | _, _ => NotANumber
  end.

(** [x + y]. *)
Definition add (x y : number) : number :=
  match x, y with
  | Finite a, Finite b => rnd (a + b)
  | Finite _, Infinite s | Infinite s, Finite _ => Infinite s
  | Infinite s, Infinite s' =>
      if Bool.eqb s s' then Infinite s else NotANumber
  | _, _ => NotANumber
  end.

(** [Math.floor(x)], as a primitive value. *)
Definition floor (x : number) : prim :=
  match x with
  | Finite q => PNum (Qfloor q)
  | Infinite s => PInf s
  | NotANumber => PNaN
  end.

End Double.

(** ** Effects: the clock, the log sinks, the sockets, the process *)

Inductive exn : Type :=
| TypeError (msg : string)
| RangeError (msg : string)
| AssertionError (msg : string).

Inductive level : Type :=
| Info
| Error
| Fatal.

(** [time.name] and [time.time] of an entry of [req.timers]; [time] is
    what [process.hrtime] returns, [[seconds, nanoseconds]]. *)
Record timer : Type := {
  name : string;
  time : Z * Z
}.

Record request : Type := {
  method : value;
  url : value;
  timers : option (list timer);
  _time : Z
}.

Record response : Type := {
  statusCode : value;
  _body : value;
  get : string -> value
}.

(** The object literal that [audit] hands to [log.info]. *)
Record audit_obj : Type := {
  obj_req : request;
  obj_res : response;
  obj_err : value;
  obj_latency : value
}.

(** A bunyan logger, as far as the code looks into it:
    [log.serializers] and [log.serializers.err]. *)
Record log_serializers : Type := {
  err : option (value -> value)
}.

Record Logger : Type := {
  serializers : option log_serializers
}.

(** The argument of [options.log.child]. *)
Record child_options : Type := {
  child_audit : bool;
  child_err : value -> value;
  child_req : arg request -> value;
  child_res : arg response -> value
}.

Inductive log_target : Type :=
| Direct (lg : Logger)
| Child (parent : Logger) (opts : child_options).

(** First argument of a logging call, when it is not the format string. *)
Inductive log_fields : Type :=
| NoFields
| ErrFields (e : value)
| AuditFields (obj : audit_obj).

(** Closures of [startServer], defunctionalised: each constructor holds
    what the closure captures. *)
Inductive listen_callback : Type :=
| ServerStarted (lg : arg Logger).

Inductive process_handler : Type :=
| processUncaughtExp (lg : arg Logger).

Inductive event : Type :=
| ELog (target : log_target) (lvl : level) (fields : log_fields)
       (fmt : string) (args : list value)
| EListen (server_name : value) (port : value) (cb : listen_callback)
| EProcessOn (ev : string) (h : process_handler)
| ESend (res : response) (payload : value).

Record world : Type := {
  now : Z;
  trace : list event
}.

Inductive outcome (A : Type) : Type :=
| Return (a : A)
| Throw (e : exn)
| Exit (code : Z).
Arguments Return {A} a.
Arguments Throw {A} e.
Arguments Exit {A} code.

Module Eff.

Definition M (A : Type) : Type := world -> outcome A * world.

Definition ret {A : Type} (a : A) : M A := fun w => (Return a, w).

Definition bind {A B : Type} (m : M A) (k : A -> M B) : M B :=
  fun w =>
    match m w with
    | (Return a, w') => k a w'
    | (Throw e, w') => (Throw e, w')
    | (Exit c, w') => (Exit c, w')
    end.

Definition throw {A : Type} (e : exn) : M A := fun w => (Throw e, w).

(** [process.exit(code)]. *)
Definition exit {A : Type} (code : Z) : M A := fun w => (Exit code, w).

(** [Date.now()]. *)
Definition date_now : M Z := fun w => (Return (now w), w).

Definition emit (e : event) : M unit :=
  fun w => (Return tt, {| now := now w; trace := trace w ++ [e] |}).

End Eff.
Import Eff.

Declare Scope eff_scope.
Delimit Scope eff_scope with eff.
Notation "x <- m ;; k" := (bind m (fun x => k))
  (at level 61, m at next level, right associativity) : eff_scope.
Notation "m ;; k" := (bind m (fun _ => k))
  (at level 61, right associativity) : eff_scope.
Local Open Scope eff_scope.

(** ** auditLogger *)

Record Options : Type := {
  log : Logger;
  body : value
}.

(** [(1000 * t[0]) + (t[1] / 1000000)], in doubles. *)
Definition ms_double (s n : Z) : Double.number :=
  Double.add (Double.mul (Double.of_Z 1000) (Double.of_Z s))
             (Double.div (Double.of_Z n) (Double.of_Z 1000000)).

(** [Math.floor((1000 * t[0]) + (t[1] / 1000000))]. *)
Definition hrtime_ms (t : Z * Z) : prim :=
  Double.floor (ms_double (fst t) (snd t)).

(** [req.timers || []]. *)
Definition timers_or_empty (req : arg request) : list timer :=
  match req with
  | Obj r =>
      match timers r with
      | Some l => l
      | None => []
      end
  | Prim _ => []
  end.

(** The body of the [forEach] callback: [timers[time.name] = _t]. *)
Definition record_timer (acc : props) (tm : timer) : props :=
  let t := time tm in
  let _t := hrtime_ms t in
  set_prop acc (name tm) (VPrim _t).

Definition auditRequestSerializer (req : arg request) : value :=
  if negb (arg_truthy req) then VBool false
  else
    let timers := fold_left record_timer (timers_or_empty req) [] in
    VObject ObjectProto
      [ ("method", field method req);
        ("url", field url req);
        ("timers", VObject ObjectProto timers) ].

Definition auditResponseSerializer (options : Options) (res : arg response)
  : value :=
  if negb (arg_truthy res) then VBool false
  else
    let body :=
      if strict_eq_true (body options) then
        if instanceof_HttpError (field _body res)
        then member (field _body res) "body"
        else field _body res
      else VUndefined in
    VObject ObjectProto
      [ ("statusCode", field statusCode res);
        ("body", body) ].

(** [log.info(obj, fmt, arg)] on the child logger or on a plain one. *)
Definition log_call (target : log_target) (lvl : level) (fields : log_fields)
    (fmt : string) (args : list value) : M unit :=
  emit (ELog target lvl fields fmt args).

Definition audit (log : log_target) (req : request) (res : response)
    (route : value) (err : value) : M value :=
  let latency := get res "Response-Time" in
  latency <- (if negb (String.eqb (typeof latency) "number")
              then (t <- date_now ;; ret (VNum (t - _time req)))
              else ret latency) ;;
  let obj := {| obj_req := req; obj_res := res;
                obj_err := err; obj_latency := latency |} in
  log_call log Info (AuditFields obj) "handled: %d" [statusCode res] ;;
  ret (VBool true).

Section AuditLogger.

(** [bunyan.stdSerializers.err]. *)
Variable stdSerializers_err : value -> value.

(** The serializer [auditLogger] picks for [err]. *)
Definition errSerializer (options : Options) : value -> value :=
  match serializers (log options) with
  | Some {| err := Some f |} => f
  | _ => stdSerializers_err
  end.

(** The child logger [auditLogger] creates. *)
Definition audit_child (options : Options) : log_target :=
  Child (log options)
    {| child_audit := true;
       child_err := errSerializer options;
       child_req := auditRequestSerializer;
       child_res := auditResponseSerializer options |}.

(** [auditLogger(options)]: the callback for [server.on('after', ...)]. *)
Definition auditLogger (options : Options)
  : request -> response -> value -> value -> M value :=
  audit (audit_child options).

End AuditLogger.

(** ** startServer *)

(** The module-level [cors] object: [corsMiddleware({...})]. *)
Record cors_options : Type := {
  preflightMaxAge : Z;
  origins : list string;
  allowHeaders : list string;
  exposeHeaders : list string
}.

Definition cors : cors_options :=
  {| preflightMaxAge := 5;
     origins := ["*"; "http://api.myapp.com"; "http://web.myapp.com"];
     allowHeaders := ["API-Token"];
     exposeHeaders := ["API-Token-Expiry"] |}.

Inductive middleware : Type :=
| cors_preflight (c : cors_options)
| cors_actual (c : cors_options)
| acceptParser
| queryParser (mapParams : bool)
| bodyParser (mapParams : bool).

Inductive route_handler : Type :=
| _getServerStatus
| _listDefinedRoutes.

Inductive server_handler : Type :=
| serverUncaughtExp (lg : arg Logger).

Record route : Type := {
  route_method : string;
  route_path : string;
  route_run : route_handler
}.

(** A restify server, as far as [startServer] configures it.
    [server_handleUncaughtExceptions] is restify's construction option of
    that name. *)
Record Server : Type := {
  server_name : value;
  server_log : arg Logger;
  server_handleUncaughtExceptions : bool;
  server_pre : list middleware;
  server_use : list middleware;
  server_routes : list route;
  server_on : list (string * server_handler)
}.

(** What the libraries under [startServer] accept.  [createServer_check n l]
    is the exception that [restify.createServer({name: n, log: l})] throws,
    if any (restify asserts the types of its options);
    [listen_check p] is the exception that [server.listen(p, cb)] throws
    before it opens a socket, if any (Node refuses a port outside
    0..65535). *)
Record Runtime : Type := {
  createServer_check : value -> arg Logger -> option exn;
  listen_check : value -> option exn
}.

Module Restify.

(** [restify.createServer({name: n, log: l})]: no
    [handleUncaughtExceptions] option is passed, and restify's default for
    it is [false]. *)
Definition createServer (rt : Runtime) (n : value) (l : arg Logger)
  : M Server :=
  match createServer_check rt n l with
  | Some e => throw e
  | None =>
      ret {| server_name := n; server_log := l;
             server_handleUncaughtExceptions := false;
             server_pre := []; server_use := [];
             server_routes := []; server_on := [] |}
  end.

(** [server.listen(port, cb)]: the socket is opened here. *)
Definition listen (rt : Runtime) (s : Server) (port : value)
    (cb : listen_callback) : M unit :=
  match listen_check rt port with
  | Some e => throw e
  | None => emit (EListen (server_name s) port cb)
  end.

Definition pre (s : Server) (m : middleware) : Server :=
  {| server_name := server_name s; server_log := server_log s;
     server_handleUncaughtExceptions := server_handleUncaughtExceptions s;
     server_pre := server_pre s ++ [m]; server_use := server_use s;
     server_routes := server_routes s; server_on := server_on s |}.

Definition use (s : Server) (m : middleware) : Server :=
  {| server_name := server_name s; server_log := server_log s;
     server_handleUncaughtExceptions := server_handleUncaughtExceptions s;
     server_pre := server_pre s; server_use := server_use s ++ [m];
     server_routes := server_routes s; server_on := server_on s |}.

(** [server.get(path, h)]. *)
Definition get_route (s : Server) (path : string) (h : route_handler)
  : Server :=
  {| server_name := server_name s; server_log := server_log s;
     server_handleUncaughtExceptions := server_handleUncaughtExceptions s;
     server_pre := server_pre s; server_use := server_use s;
     server_routes := server_routes s ++
       [{| route_method := "GET"; route_path := path; route_run := h |}];
     server_on := server_on s |}.

(** [server.on(ev, h)]. *)
Definition on (s : Server) (ev : string) (h : server_handler) : Server :=
  {| server_name := server_name s; server_log := server_log s;
     server_handleUncaughtExceptions := server_handleUncaughtExceptions s;
     server_pre := server_pre s; server_use := server_use s;
     server_routes := server_routes s;
     server_on := server_on s ++ [(ev, h)] |}.

(** [server.router.routes[key]], as the list of [spec.path]s. *)
Definition routes_of (s : Server) (key : string) : list string :=
  map route_path
    (filter (fun r => String.eqb (route_method r) key) (server_routes s)).

(** [res.send(payload)]. *)
Definition send (res : response) (payload : value) : M unit :=
  emit (ESend res payload).

End Restify.

(** A method call [logger.info/error/fatal(...)] on the [logger] argument
    of [startServer]: a primitive has no such method, and the call is a
    [TypeError]. *)
Definition logger_call (lg : arg Logger) (lvl : level) (fields : log_fields)
    (fmt : string) (args : list value) : M unit :=
  match lg with
  | Obj l => log_call (Direct l) lvl fields fmt args
  | Prim _ => throw (TypeError "logger method is not a function")
  end.

Definition _initCommonRoutes (server : Server) : Server :=
  let server := Restify.get_route server "/_status" _getServerStatus in
  Restify.get_route server "/api/admin/_routes" _listDefinedRoutes.

Definition _initErrorHandler (logger : arg Logger) (server : Server)
  : M Server :=
  let server :=
    Restify.on server "uncaughtException" (serverUncaughtExp logger) in
  emit (EProcessOn "uncaughtException" (processUncaughtExp logger)) ;;
  ret server.

Definition startServer (rt : Runtime) (appName port : value)
    (logger : arg Logger) : M Server :=
  if negb (truthy appName) then
    throw (TypeError
      "Require parameter appName in startServer(appName,port,logger)")
  else if negb (arg_truthy logger) then
    throw (TypeError
      "Require parameter logger in startServer(appName,port,logger)")
  else if negb (truthy port) then
    throw (TypeError
      "Require parameter port in startServer(appName,port,logger)")
  else
    server <- Restify.createServer rt appName logger ;;
    Restify.listen rt server port (ServerStarted logger) ;;
    let server := Restify.pre server (cors_preflight cors) in
    let server := Restify.use server (cors_actual cors) in
    let server := Restify.use server acceptParser in
    let server := Restify.use server (queryParser true) in
    let server := Restify.use server (bodyParser true) in
    let server := _initCommonRoutes server in
    server <- _initErrorHandler logger server ;;
    ret server.

(** *** The closures [startServer] registers *)

Definition run_serverUncaughtExp (h : server_handler) (req : request)
    (res : response) (route : value) (err : value) : M unit :=
  match h with
  | serverUncaughtExp logger =>
      logger_call logger Error (ErrFields err) "uncaughtException" [] ;;
      Restify.send res err
  end.

Definition run_processUncaughtExp (h : process_handler) (err : value)
  : M unit :=
  match h with
  | processUncaughtExp logger =>
      let msg := "Uncaught fatal exception, process will exit now." in
      logger_call logger Fatal (ErrFields err) msg [] ;;
      exit 1
  end.

(** *** An exception thrown by a route handler

    This part is restify's and Node's, not this repository's.  A server
    made with [handleUncaughtExceptions] runs its handler stack in a domain
    and emits ['uncaughtException'] on the server; a server made without
    it lets the exception leave restify, and Node emits
    ['uncaughtException'] on the process.  Node runs the listeners in the
    order of their registration, and exits with code 1 when there is
    none. *)

Fixpoint run_process_listeners (hs : list (string * process_handler))
    (err : value) : M unit :=
  match hs with
  | [] => ret tt
  | (ev, h) :: hs' =>
      if String.eqb ev "uncaughtException"
      then (run_processUncaughtExp h err ;; run_process_listeners hs' err)
      else run_process_listeners hs' err
  end.

Fixpoint run_server_listeners (hs : list (string * server_handler))
    (req : request) (res : response) (route err : value) : M unit :=
  match hs with
  | [] => ret tt
  | (ev, h) :: hs' =>
      if String.eqb ev "uncaughtException"
      then (run_serverUncaughtExp h req res route err ;;
            run_server_listeners hs' req res route err)
      else run_server_listeners hs' req res route err
  end.

(** The process-level listeners registered so far. *)
Definition process_listeners (w : world) : list (string * process_handler) :=
  flat_map (fun e => match e with
                     | EProcessOn ev h => [(ev, h)]
                     | _ => []
                     end) (trace w).

Definition process_uncaught (err : value) : M unit :=
  fun w =>
    match filter (fun eh => String.eqb (fst eh) "uncaughtException")
            (process_listeners w) with
    | [] => exit 1 w
    | _ => run_process_listeners (process_listeners w) err w
    end.

Definition handler_threw (server : Server) (req : request) (res : response)
    (route err : value) : M unit :=
  if server_handleUncaughtExceptions server
  then run_server_listeners (server_on server) req res route err
  else process_uncaught err.

Section ServerIntrospection.

(** [server.url] and [server.getDebugInfo()], both restify's. *)
Variable server_url : Server -> value.
Variable getDebugInfo : Server -> value.

Definition run_listen_callback (cb : listen_callback) (server : Server)
  : M unit :=
  match cb with
  | ServerStarted logger =>
      logger_call logger Info NoFields "Server started %s" [server_url server]
  end.

Definition run_route_handler (h : route_handler) (server : Server)
    (req : request) (res : response) : M unit :=
  match h with
  | _getServerStatus =>
      Restify.send res
        (VObject ObjectProto
           [("status", VStr "OK"); ("info", getDebugInfo server)])
  | _listDefinedRoutes =>
      let result :=
        map (fun key =>
               (key, VArray (map (fun p => VStr p)
                               (Restify.routes_of server key))))
            ["GET"; "PUT"; "DELETE"; "POST"] in
      Restify.send res (VObject ObjectProto result)
  end.

End ServerIntrospection.

(** ** Observations and sample data used by the statements below *)

(** Own properties of a serialized object; a primitive has none. *)
Definition own_props (v : value) : props :=
  match v with
  | VObject _ o => o
  | _ => []
  end.

(** The [timers] object inside what the [req] serializer returns. *)
Definition serialized_timers (req : arg request) : props :=
  own_props (member (auditRequestSerializer req) "timers").

(** The sample that a later sample of the same name does not overwrite. *)
Definition last_sample (nm : string) (l : list timer) : option timer :=
  find (fun tm => String.eqb (name tm) nm) (rev l).

(** The events a computation adds to the trace, given that it only
    appends: what is left after the first [length (trace w)] events. *)
Definition emitted {A : Type} (m : M A) (w : world) : list event :=
  skipn (List.length (trace w)) (trace (snd (m w))).

(** The text of the [TypeError] that [startServer] throws for parameter
    [p]. *)
Definition require_parameter (p : string) : string :=
  String.append "Require parameter "
    (String.append p " in startServer(appName,port,logger)").

Definition no_headers : string -> value := fun _ => VUndefined.

Definition response_time (ms : Z) : string -> value :=
  fun h => if String.eqb h "Response-Time" then VNum ms else VUndefined.

Definition sample_logger : Logger := {| serializers := None |}.

Definition sample_options (capture : value) : Options :=
  {| log := sample_logger; body := capture |}.

Definition parse_twice : list timer :=
  [ {| name := "parse"; time := (1, 0) |};
    {| name := "route"; time := (0, 2500000) |};
    {| name := "parse"; time := (2, 999999) |} ].

Definition sample_request (ts : option (list timer)) : request :=
  {| method := VStr "GET"; url := VStr "/a"; timers := ts; _time := 1000 |}.

Definition sample_payload : value :=
  VObject ObjectProto [("code", VStr "X")].

Definition sample_http_error : value :=
  VObject HttpErrorProto
    [("body", sample_payload); ("statusCode", VNum 404)].

Definition sample_response (b : value) (hdr : string -> value) : response :=
  {| statusCode := VNum 200; _body := b; get := hdr |}.

Definition sample_world : world := {| now := 1500; trace := [] |}.

(** ** Further observations *)

(** An hrtime pair as one number of nanoseconds. *)
Definition hrtime_ns (t : Z * Z) : Z := fst t * 1000000000 + snd t.

(** The object a handler sent, when the events are one [res.send] of an
    object. *)
Definition listing_of (es : list event) : props :=
  match es with
  | [ESend _ (VObject _ L)] => L
  | _ => []
  end.

(** The array bound to [m] in a route listing. *)
Definition listed (L : props) (m : string) : list value :=
  match lookup L m with
  | Some (VArray l) => l
  | _ => []
  end.

(** The registrations of process-level handlers among some events. *)
Definition process_handlers (es : list event) : list (string * process_handler) :=
  flat_map (fun e => match e with
                     | EProcessOn ev h => [(ev, h)]
                     | _ => []
                     end) es.

(** The sockets opened among some events: server name and port. *)
Definition sockets (es : list event) : list (value * value) :=
  flat_map (fun e => match e with
                     | EListen n p _ => [(n, p)]
                     | _ => []
                     end) es.

(** The expression of [ms_double] evaluated by the binary64 operations of
    the standard library's [SpecFloat] (53 bits, [emax] 1024), to compare
    the rounding of [Double] with on concrete inputs. *)
Definition reference_floor (f : SpecFloat.spec_float) : option Z :=
  match f with
  | SpecFloat.S754_zero _ => Some 0
  | SpecFloat.S754_finite s m e =>
      let v := if s then Z.neg m else Z.pos m in
      Some (if 0 <=? e then v * 2 ^ e else v / 2 ^ (- e))
  | _ => None
  end.

Definition ms_reference (s n : positive) : option Z :=
  reference_floor
    (SpecFloat.SFadd 53 1024
       (SpecFloat.SFmul 53 1024 (SpecFloat.S754_finite false 1000 0)
          (SpecFloat.S754_finite false s 0))
       (SpecFloat.SFdiv 53 1024 (SpecFloat.S754_finite false n 0)
          (SpecFloat.S754_finite false 1000000 0))).

Definition proto_and_route : list timer :=
  [ {| name := "__proto__"; time := (1, 0) |};
    {| name := "route"; time := (0, 2500000) |} ].

Definition index_names : list timer :=
  [ {| name := "b"; time := (0, 0) |};
    {| name := "2"; time := (0, 0) |};
    {| name := "10"; time := (0, 0) |};
    {| name := "01"; time := (0, 0) |};
    {| name := "1"; time := (0, 0) |} ].

(** A server as [createServer] would make it with
    [handleUncaughtExceptions: true]. *)
Definition domain_server : Server :=
  {| server_name := VStr "app"; server_log := Obj sample_logger;
     server_handleUncaughtExceptions := true;
     server_pre := []; server_use := []; server_routes := [];
     server_on := [("uncaughtException", serverUncaughtExp (Obj sample_logger))] |}.

Definition patch_route : route :=
  {| route_method := "PATCH"; route_path := "/c";
     route_run := _getServerStatus |}.

Definition post_route : route :=
  {| route_method := "POST"; route_path := "/b";
     route_run := _getServerStatus |}.

Definition sample_server : Server :=
  {| server_name := VStr "app"; server_log := Obj sample_logger;
     server_handleUncaughtExceptions := false;
     server_pre := []; server_use := [];
     server_routes := [post_route; patch_route]; server_on := [] |}.

(** A runtime that refuses what restify and Node are known to refuse: a
    name that is not a string, a logger that is not an object, a numeric
    port outside 0..65535. *)
Definition strict_runtime : Runtime :=
  {| createServer_check := fun n l =>
       match n, l with
       | VStr _, Obj _ => None
       | VStr _, Prim _ => Some (AssertionError "options.log (object) is required")
       | _, _ => Some (AssertionError "options.name (string) is required")
       end;
     listen_check := fun p =>
       match p with
       | VNum n =>
           if (0 <=? n) && (n <=? 65535) then None
           else Some (RangeError "options.port should be >= 0 and < 65536")
       | _ => None
       end |}.

Definition proto_twice : list timer :=
  [ {| name := "__proto__"; time := (1, 0) |};
    {| name := "__proto__"; time := (2, 0) |} ].

(** * Properties *)

(** ** Property lists *)

Section PropsFacts.

Implicit Types (o : props) (k : string) (v : value).

Lemma has_prop_keys o k : has_prop o k = true <-> In k (keys o).
Proof.
  unfold has_prop. induction o as [|[k' v'] o IH]; cbn.
  - split; [discriminate | tauto].
  - destruct (String.eqb k' k) eqn:E.
    + apply String.eqb_eq in E. tauto.
    + apply String.eqb_neq in E. rewrite IH. tauto.
Qed.

Lemma lookup_replace_prop o k k' v :
  lookup (replace_prop o k v) k' =
  if String.eqb k k' then (if has_prop o k then Some v else None)
  else lookup o k'.
Proof.
  unfold has_prop. induction o as [|[k0 v0] o IH]; cbn.
  - now destruct (String.eqb k k').
  - destruct (String.eqb k0 k) eqn:E; cbn.
    + apply String.eqb_eq in E. subst k0. now destruct (String.eqb k k').
    + destruct (String.eqb k0 k') eqn:E'; [|exact IH].
      apply String.eqb_eq in E'. subst k0. now rewrite String.eqb_sym, E.
Qed.

Lemma keys_replace_prop o k v : keys (replace_prop o k v) = keys o.
Proof.
  unfold keys. induction o as [|[k0 v0] o IH]; cbn; auto.
  destruct (String.eqb k0 k); cbn; [reflexivity | now rewrite IH].
Qed.

Lemma lookup_insert_index o i k k' v :
  has_prop o k = false ->
  lookup (insert_index o i k v) k' =
  if String.eqb k k' then Some v else lookup o k'.
Proof.
  unfold has_prop. induction o as [|[k0 v0] o IH]; cbn; intros Hno.
  - reflexivity.
  - destruct (String.eqb k0 k) eqn:E; [discriminate Hno|].
    destruct (array_index k0) as [j|]; [destruct (j <? i)%N|]; cbn;
      try reflexivity.
    rewrite (IH Hno). destruct (String.eqb k0 k') eqn:E'; [|reflexivity].
    apply String.eqb_eq in E'. subst k0. now rewrite String.eqb_sym, E.
Qed.

Lemma keys_insert_index o i k v :
  Permutation (keys (insert_index o i k v)) (k :: keys o).
Proof.
  unfold keys. induction o as [|[k0 v0] o IH]; cbn; [reflexivity|].
  destruct (array_index k0) as [j|]; [destruct (j <? i)%N|]; cbn;
    try reflexivity.
  rewrite IH. apply perm_swap.
Qed.

Lemma lookup_app_new o k k' v :
  has_prop o k = false ->
  lookup (o ++ [(k, v)]) k' = if String.eqb k k' then Some v else lookup o k'.
Proof.
  unfold has_prop. induction o as [|[k0 v0] o IH]; cbn; intros Hno.
  - reflexivity.
  - destruct (String.eqb k0 k) eqn:E; [discriminate Hno|].
    rewrite (IH Hno). destruct (String.eqb k0 k') eqn:E'; [|reflexivity].
    apply String.eqb_eq in E'. subst k0. now rewrite String.eqb_sym, E.
Qed.

Lemma lookup_put_prop o k k' v :
  lookup (put_prop o k v) k' = if String.eqb k k' then Some v else lookup o k'.
Proof.
  unfold put_prop. destruct (has_prop o k) eqn:E.
  - now rewrite lookup_replace_prop, E.
  - destruct (array_index k);
      [now apply lookup_insert_index | now apply lookup_app_new].
Qed.

Lemma keys_put_prop o k v :
  Permutation (keys (put_prop o k v))
    (if has_prop o k then keys o else k :: keys o).
Proof.
  unfold put_prop. destruct (has_prop o k).
  - now rewrite keys_replace_prop.
  - destruct (array_index k); [apply keys_insert_index|].
    unfold keys. rewrite map_app. cbn. symmetry. apply Permutation_cons_append.
Qed.

(** Assignment to a key other than [__proto__], read back. *)
Lemma lookup_set_prop_same o k v :
  k <> "__proto__" -> lookup (set_prop o k v) k = Some v.
Proof.
  intros Hk. unfold set_prop. apply String.eqb_neq in Hk. rewrite Hk.
  now rewrite lookup_put_prop, String.eqb_refl.
Qed.

Lemma lookup_set_prop_other o k k' v :
  k <> k' -> lookup (set_prop o k v) k' = lookup o k'.
Proof.
  intros Hne. unfold set_prop. destruct (String.eqb k "__proto__"); auto.
  rewrite lookup_put_prop. apply String.eqb_neq in Hne. now rewrite Hne.
Qed.

(** Assignment to [__proto__] leaves the own properties alone. *)
Lemma set_prop_proto o v : set_prop o "__proto__" v = o.
Proof. reflexivity. Qed.

Lemma keys_set_prop o k v :
  Permutation (keys (set_prop o k v))
    (if String.eqb k "__proto__" || has_prop o k then keys o
     else k :: keys o).
Proof.
  unfold set_prop. destruct (String.eqb k "__proto__"); cbn [orb].
  - reflexivity.
  - apply keys_put_prop.
Qed.

Lemma NoDup_keys_set_prop o k v :
  NoDup (keys o) -> NoDup (keys (set_prop o k v)).
Proof.
  intros Hnd. eapply Permutation_NoDup; [symmetry; apply keys_set_prop|].
  destruct (String.eqb k "__proto__" || has_prop o k) eqn:E; auto.
  apply orb_false_elim in E. destruct E as [_ E].
  constructor; auto. rewrite <- has_prop_keys, E. discriminate.
Qed.

End PropsFacts.

(** ** Rounding to a double *)

Section DoubleFacts.

Import Double.
Local Open Scope Q_scope.

Lemma pow2_pos z : 0 < pow2 z.
Proof. apply Qpower_0_lt. reflexivity. Qed.

Lemma pow2_plus a b : pow2 (a + b) == pow2 a * pow2 b.
Proof. apply Qpower_plus. discriminate. Qed.

Lemma pow2_inject z : (0 <= z)%Z -> pow2 z == inject_Z (2 ^ z).
Proof. intros Hz. unfold pow2. now rewrite Zpower_Qpower. Qed.

Lemma Qfloor_unique (x : Q) (z : Z) :
  inject_Z z <= x -> x < inject_Z (z + 1) -> Qfloor x = z.
Proof.
  intros Hlo Hhi.
  pose proof (Qfloor_le x) as H1. pose proof (Qlt_floor x) as H2.
  assert (Ha : inject_Z z < inject_Z (Qfloor x + 1)) by lra.
  assert (Hb : inject_Z (Qfloor x) < inject_Z (z + 1)) by lra.
  rewrite <- Zlt_Qlt in Ha, Hb. lia.
Qed.

Lemma ilog2_lt (x : Q) (a : Z) :
  0 < x -> (0 <= a)%Z -> x < inject_Z (2 ^ a) -> (ilog2 x < a)%Z.
Proof.
  intros Hx Ha Hlt. unfold ilog2.
  destruct x as [n d]. cbn [Qnum Qden].
  assert (Hn : (0 < n)%Z).
  { unfold Qlt in Hx. cbn in Hx. lia. }
  assert (Hnd : (n < 2 ^ a * Z.pos d)%Z).
  { unfold Qlt in Hlt. cbn in Hlt. lia. }
  assert (He0 : (Z.log2 n - Z.log2 (Z.pos d) <= a)%Z).
  { assert (Z.log2 n <= Z.log2 (Z.pos d * 2 ^ a))%Z
      by (apply Z.log2_le_mono; lia).
    rewrite Z.log2_mul_pow2 in H by lia. lia. }
  destruct (Qle_bool (pow2 (Z.log2 n - Z.log2 (Z.pos d))) (n # d)) eqn:E;
    [|lia].
  apply Qle_bool_iff in E.
  destruct (Z.eq_dec (Z.log2 n - Z.log2 (Z.pos d)) a) as [Heq|Hne]; [|lia].
  rewrite Heq, pow2_inject in E by lia. lra.
Qed.

Lemma rne_between (y : Q) (L H : Z) :
  inject_Z L <= y -> y <= inject_Z H -> (L <= rne y <= H)%Z.
Proof.
  intros Hlo Hhi. unfold rne.
  pose proof (Qfloor_le y) as H1. pose proof (Qlt_floor y) as H2.
  assert (HL : (L <= Qfloor y)%Z).
  { rewrite <- (Qfloor_Z L). now apply Qfloor_resp_le. }
  assert (HH : (Qfloor y <= H)%Z).
  { rewrite <- (Qfloor_Z H). now apply Qfloor_resp_le. }
  assert (Hup : inject_Z (Qfloor y) < y -> (Qfloor y + 1 <= H)%Z).
  { intros Hlt. assert (inject_Z (Qfloor y) < inject_Z H) by lra.
    rewrite <- Zlt_Qlt in H0. lia. }
  destruct (Qcompare (y - inject_Z (Qfloor y)) (1 # 2)) eqn:E.
  - apply Qeq_alt in E. destruct (Z.even (Qfloor y)); [lia|].
    split; [lia|]. apply Hup. lra.
  - lia.
  - apply Qgt_alt in E. split; [lia|]. apply Hup. lra.
Qed.

(** A value between two multiples of [2^-g] that are doubles is rounded to
    a double between them. *)
Lemma round_q_between (g L H : Z) (x : Q) :
  (0 <= g <= 53)%Z -> (0 <= L)%Z -> (H < 2 ^ 53)%Z ->
  inject_Z L * pow2 (- g) <= x -> x <= inject_Z H * pow2 (- g) ->
  inject_Z L * pow2 (- g) <= round_q x /\
  round_q x <= inject_Z H * pow2 (- g).
Proof.
  intros Hg HL HH Hlo Hhi. unfold round_q.
  pose proof (pow2_pos (- g)) as Hpg.
  destruct (Qeq_bool x 0) eqn:E0.
  - apply Qeq_bool_iff in E0. rewrite E0 in Hlo, Hhi. split; assumption.
  - apply Qeq_bool_neq in E0.
    assert (HL' : 0 <= inject_Z L)
      by (change 0 with (inject_Z 0); rewrite <- Zle_Qle; exact HL).
    assert (Hx : 0 < x).
    { assert (0 <= inject_Z L * pow2 (- g)) by (apply Qmult_le_0_compat; lra).
      destruct (Qlt_le_dec 0 x) as [|Hle]; [assumption|].
      exfalso. apply E0. lra. }
    assert (Habs : Qabs x = x).
    { destruct x as [n d]. unfold Qlt in Hx. cbn in Hx.
      unfold Qabs. f_equal. apply Z.abs_eq. lia. }
    rewrite Habs.
    assert (Hlt : x < inject_Z (2 ^ (53 - g))).
    { assert (inject_Z H < inject_Z (2 ^ 53)) by (rewrite <- Zlt_Qlt; exact HH).
      assert (inject_Z (2 ^ 53) * pow2 (- g) == inject_Z (2 ^ (53 - g))).
      { rewrite <- !pow2_inject by lia. rewrite <- pow2_plus.
        now replace (53 + - g)%Z with (53 - g)%Z by lia. }
      assert (inject_Z H * pow2 (- g) < inject_Z (2 ^ 53) * pow2 (- g)).
      { apply Qmult_lt_compat_r; assumption. }
      lra. }
    pose proof (ilog2_lt x (53 - g) Hx ltac:(lia) Hlt) as He.
    set (e := Z.max (ilog2 x) (-1022)).
    assert (Hj : (e - 52 <= - g)%Z) by (unfold e; lia).
    set (j := (e - 52)%Z) in *.
    pose proof (pow2_pos j) as Hu.
    set (m := (2 ^ (- g - j))%Z).
    assert (Hm : pow2 (- g) == inject_Z m * pow2 j).
    { unfold m. rewrite <- pow2_inject by lia. rewrite <- pow2_plus.
      now replace (- g - j + j)%Z with (- g)%Z by lia. }
    assert (Hy1 : inject_Z (L * m) <= x / pow2 j).
    { apply Qle_shift_div_l; [assumption|]. rewrite inject_Z_mult.
      rewrite Hm in Hlo. lra. }
    assert (Hy2 : x / pow2 j <= inject_Z (H * m)).
    { apply Qle_shift_div_r; [assumption|]. rewrite inject_Z_mult.
      rewrite Hm in Hhi. lra. }
    destruct (rne_between _ _ _ Hy1 Hy2) as [Hr1 Hr2].
    rewrite Zle_Qle in Hr1, Hr2. rewrite inject_Z_mult in Hr1, Hr2.
    rewrite Hm. split.
    + setoid_replace (inject_Z L * (inject_Z m * pow2 j))
        with ((inject_Z L * inject_Z m) * pow2 j) by ring.
      apply Qmult_le_compat_r; [exact Hr1 | lra].
    + setoid_replace (inject_Z H * (inject_Z m * pow2 j))
        with ((inject_Z H * inject_Z m) * pow2 j) by ring.
      apply Qmult_le_compat_r; [exact Hr2 | lra].
Qed.

Lemma pow2_0 : pow2 0 == 1.
Proof. reflexivity. Qed.

Lemma pow2_m20 : pow2 (-20) == 1 # 1048576.
Proof. reflexivity. Qed.

Lemma rnd_between (g L H : Z) (x : Q) :
  (0 <= g <= 53)%Z -> (0 <= L)%Z -> (H < 2 ^ 53)%Z ->
  inject_Z L * pow2 (- g) <= x -> x <= inject_Z H * pow2 (- g) ->
  exists r, rnd x = Finite r /\
            inject_Z L * pow2 (- g) <= r /\ r <= inject_Z H * pow2 (- g).
Proof.
  intros Hg HL HH Hlo Hhi.
  destruct (round_q_between g L H x Hg HL HH Hlo Hhi) as [H1 H2].
  exists (round_q x). split; [|split; assumption].
  unfold rnd. pose proof (pow2_pos (- g)) as Hpg.
  assert (HL' : 0 <= inject_Z L)
    by (change 0 with (inject_Z 0); rewrite <- Zle_Qle; exact HL).
  assert (H0 : 0 <= round_q x).
  { assert (0 <= inject_Z L * pow2 (- g)) by (apply Qmult_le_0_compat; lra).
    lra. }
  assert (Hbig : round_q x < pow2 1024).
  { assert (inject_Z H < inject_Z (2 ^ 53)) by (rewrite <- Zlt_Qlt; exact HH).
    assert (inject_Z H * pow2 (- g) < inject_Z (2 ^ 53) * pow2 (- g))
      by (apply Qmult_lt_compat_r; assumption).
    assert (inject_Z (2 ^ 53) * pow2 (- g) == inject_Z (2 ^ (53 - g))).
    { rewrite <- !pow2_inject by lia. rewrite <- pow2_plus.
      now replace (53 + - g)%Z with (53 - g)%Z by lia. }
    assert (inject_Z (2 ^ (53 - g)) <= inject_Z (2 ^ 53)).
    { rewrite <- Zle_Qle. apply Z.pow_le_mono_r; lia. }
    assert (inject_Z (2 ^ 53) < pow2 1024) by reflexivity.
    lra. }
  destruct (Qle_bool (pow2 1024) (Qabs (round_q x))) eqn:E; [|reflexivity].
  apply Qle_bool_iff in E. rewrite Qabs_pos in E by exact H0. lra.
Qed.

Lemma of_Z_exact (z : Z) :
  (0 <= z < 2 ^ 53)%Z -> exists r, of_Z z = Finite r /\ r == inject_Z z.
Proof.
  intros Hz. unfold of_Z.
  destruct (rnd_between 0 z z (inject_Z z)) as (r & Hr & H1 & H2);
    try lia; try (change (- 0)%Z with 0%Z; rewrite pow2_0; lra).
  exists r. split; [exact Hr|].
  change (- 0)%Z with 0%Z in H1, H2. rewrite pow2_0 in H1, H2. lra.
Qed.

Lemma ms_double_bounds (s n : Z) :
  (0 <= s)%Z -> (0 <= n < 2 ^ 53)%Z ->
  (1000 * s + n / 1000000 + 1 <= 2 ^ 33)%Z ->
  exists c, ms_double s n = Finite c /\
            inject_Z (1000 * s + n / 1000000) <= c /\
            c < inject_Z (1000 * s + n / 1000000 + 1).
Proof.
  intros Hs Hn Hrange. unfold ms_double.
  set (k := (n / 1000000)%Z) in *.
  assert (Hk : (0 <= k)%Z) by (apply Z.div_pos; lia).
  pose proof (Z.div_mod n 1000000 ltac:(lia)) as Hdm.
  pose proof (Z.mod_pos_bound n 1000000 ltac:(lia)) as Hmod.
  fold k in Hdm. set (r := (n mod 1000000)%Z) in *.
  assert (HnQ : inject_Z n == 1000000 * inject_Z k + inject_Z r).
  { rewrite Hdm, inject_Z_plus, inject_Z_mult. reflexivity. }
  assert (Hr0 : 0 <= inject_Z r)
    by (change 0 with (inject_Z 0); rewrite <- Zle_Qle; lia).
  assert (Hr1 : inject_Z r <= 999999)
    by (change 999999 with (inject_Z 999999); rewrite <- Zle_Qle; lia).
  assert (Hk0 : 0 <= inject_Z k)
    by (change 0 with (inject_Z 0); rewrite <- Zle_Qle; lia).
  assert (Hs0 : 0 <= inject_Z s)
    by (change 0 with (inject_Z 0); rewrite <- Zle_Qle; lia).
  destruct (of_Z_exact 1000 ltac:(lia)) as (r1 & -> & E1).
  destruct (of_Z_exact s ltac:(lia)) as (r2 & -> & E2).
  destruct (of_Z_exact n ltac:(lia)) as (r3 & -> & E3).
  destruct (of_Z_exact 1000000 ltac:(lia)) as (r4 & -> & E4).
  cbn [mul div].
  (* the product is exact *)
  destruct (rnd_between 0 (1000 * s) (1000 * s) (r1 * r2))
    as (p & -> & P1 & P2); try lia;
    try (change (- 0)%Z with 0%Z; rewrite pow2_0, inject_Z_mult, E1, E2;
         change (inject_Z 1000) with 1000; lra).
  change (- 0)%Z with 0%Z in P1, P2.
  rewrite pow2_0, inject_Z_mult in P1, P2.
  change (inject_Z 1000) with 1000 in P1, P2.
  (* the quotient stays below the next integer by 2^-20 *)
  assert (Hz4 : is_zero r4 = false).
  { unfold is_zero. destruct (Qeq_bool r4 0) eqn:E; [|reflexivity].
    apply Qeq_bool_iff in E. rewrite E in E4.
    change (inject_Z 1000000) with 1000000 in E4. lra. }
  rewrite Hz4.
  assert (Hq : r3 / r4 == inject_Z k + inject_Z r * (1 # 1000000)).
  { rewrite E3, E4, HnQ. change (inject_Z 1000000) with 1000000. field. }
  destruct (rnd_between 20 (k * 2 ^ 20) ((k + 1) * 2 ^ 20 - 1) (r3 / r4))
    as (b & -> & B1 & B2); try lia.
  { rewrite Hq, pow2_m20, inject_Z_mult.
    change (inject_Z (2 ^ 20)) with 1048576. lra. }
  { rewrite Hq, pow2_m20. unfold Z.sub.
    rewrite inject_Z_plus, inject_Z_mult, inject_Z_plus.
    change (inject_Z (2 ^ 20)) with 1048576.
    change (inject_Z (- (1))) with (-1). change (inject_Z 1) with 1. lra. }
  rewrite pow2_m20 in B1, B2. unfold Z.sub in B2.
  rewrite inject_Z_mult in B1.
  rewrite inject_Z_plus, inject_Z_mult, inject_Z_plus in B2.
  change (inject_Z (2 ^ 20)) with 1048576 in B1, B2.
  change (inject_Z (- (1))) with (-1) in B2.
  change (inject_Z 1) with 1 in B2.
  cbn [add].
  (* so does the sum, as long as it is below 2^33 *)
  destruct (rnd_between 20 ((1000 * s + k) * 2 ^ 20)
              ((1000 * s + k + 1) * 2 ^ 20 - 1) (p + b))
    as (c & -> & C1 & C2); try lia.
  { rewrite pow2_m20, inject_Z_mult, inject_Z_plus, inject_Z_mult.
    change (inject_Z (2 ^ 20)) with 1048576.
    change (inject_Z 1000) with 1000. lra. }
  { rewrite pow2_m20. unfold Z.sub.
    rewrite inject_Z_plus, inject_Z_mult, !inject_Z_plus, inject_Z_mult.
    change (inject_Z (2 ^ 20)) with 1048576.
    change (inject_Z (- (1))) with (-1). change (inject_Z 1) with 1.
    change (inject_Z 1000) with 1000. lra. }
  exists c. split; [reflexivity|].
  rewrite pow2_m20 in C1, C2. unfold Z.sub in C2.
  rewrite inject_Z_mult, inject_Z_plus, inject_Z_mult in C1.
  rewrite inject_Z_plus, inject_Z_mult, !inject_Z_plus, inject_Z_mult in C2.
  change (inject_Z (2 ^ 20)) with 1048576 in C1, C2.
  change (inject_Z (- (1))) with (-1) in C2.
  change (inject_Z 1) with 1 in C2.
  change (inject_Z 1000) with 1000 in C1, C2.
  rewrite !inject_Z_plus, inject_Z_mult.
  change (inject_Z 1) with 1. change (inject_Z 1000) with 1000.
  split; lra.
Qed.

End DoubleFacts.

(** ** The millisecond conversion *)

Lemma exact_ms_div (s n : Z) :
  Qfloor (1000 * inject_Z s + inject_Z n / 1000000)%Q = 1000 * s + n / 1000000.
Proof.
  unfold Qdiv, Qinv, Qmult, Qplus, inject_Z, Qfloor. cbn [Qnum Qden].
  change (Z.pos (1 * 1000000)) with 1000000.
  change (Z.pos (1 * 1 * (1 * 1000000))) with 1000000.
  change (Z.pos (1 * 1)) with 1.
  replace (1000 * s * 1000000 + n * 1 * 1) with (1000 * s * 1000000 + n) by lia.
  rewrite Z.div_add_l by lia. reflexivity.
Qed.

Lemma spec_ms_div (s n : Z) :
  Qfloor (inject_Z s * 1000 + inject_Z n / 1000000)%Q = 1000 * s + n / 1000000.
Proof.
  rewrite <- exact_ms_div. apply Qfloor_comp. ring.
Qed.

(** In this range the doubles of the source give the exact floor: the
    sum stays below [2^33], where a double still resolves [2^-20], which
    is less than the [1e-6] that separates [n / 1e6] from the next
    integer. *)
Lemma hrtime_ms_exact (s n : Z) :
  0 <= s -> 0 <= n < 2 ^ 53 -> 1000 * s + n / 1000000 + 1 <= 2 ^ 33 ->
  hrtime_ms (s, n) = PNum (1000 * s + n / 1000000).
Proof.
  intros Hs Hn Hr. unfold hrtime_ms. cbn [fst snd].
  destruct (ms_double_bounds s n Hs Hn Hr) as (c & -> & C1 & C2).
  cbn [Double.floor]. f_equal. now apply Qfloor_unique.
Qed.

(** The range of [hrtime_ms_exact] for a pair as [process.hrtime] returns
    it: nanoseconds below one second, at most 8589933 seconds (99 days). *)
Lemma hrtime_ms_exact_normalised (s n : Z) :
  0 <= s <= 8589933 -> 0 <= n < 1000000000 ->
  hrtime_ms (s, n) = PNum (1000 * s + n / 1000000).
Proof.
  intros Hs Hn. apply hrtime_ms_exact; try lia.
  assert (n / 1000000 < 1000) by (apply Z.div_lt_upper_bound; lia).
  lia.
Qed.

(** ** The timers object built by [auditRequestSerializer] *)

Lemma serialized_timers_fold (r : request) :
  serialized_timers (Obj r) = fold_left record_timer (timers_or_empty (Obj r)) [].
Proof. reflexivity. Qed.

Lemma lookup_fold_record_timer (l : list timer) (acc : props) (nm : string) :
  lookup (fold_left record_timer l acc) nm =
  if String.eqb nm "__proto__" then lookup acc nm
  else
    match last_sample nm l with
    | Some tm => Some (VPrim (hrtime_ms (time tm)))
    | None => lookup acc nm
    end.
Proof.
  unfold last_sample. induction l as [|tm l IH] using rev_ind; cbn.
  - now destruct (String.eqb nm "__proto__").
  - rewrite fold_left_app, rev_unit. cbn. unfold record_timer at 1.
    destruct (String.eqb (name tm) nm) eqn:E.
    + apply String.eqb_eq in E. subst nm.
      destruct (String.eqb (name tm) "__proto__") eqn:Ep.
      * apply String.eqb_eq in Ep. rewrite Ep in *.
        rewrite set_prop_proto. exact IH.
      * apply String.eqb_neq in Ep. now apply lookup_set_prop_same.
    + apply String.eqb_neq in E. rewrite lookup_set_prop_other by exact E.
      exact IH.
Qed.

Lemma NoDup_keys_fold_record_timer (l : list timer) (acc : props) :
  NoDup (keys acc) -> NoDup (keys (fold_left record_timer l acc)).
Proof.
  revert acc. induction l as [|tm l IH]; cbn; auto.
  intros acc Hnd. apply IH. now apply NoDup_keys_set_prop.
Qed.

Lemma last_sample_some (l : list timer) (nm : string) :
  In nm (map name l) ->
  exists l1 tm l2,
    l = l1 ++ tm :: l2 /\ name tm = nm /\ ~ In nm (map name l2) /\
    last_sample nm l = Some tm.
Proof.
  unfold last_sample. induction l as [|tm l IH] using rev_ind; cbn.
  - tauto.
  - rewrite map_app, in_app_iff, rev_unit. cbn. intros Hin.
    destruct (String.eqb (name tm) nm) eqn:E.
    + apply String.eqb_eq in E. exists l, tm, []. cbn. tauto.
    + apply String.eqb_neq in E.
      destruct IH as (l1 & tm' & l2 & Hl & Hn & Hnot & Hf); [tauto|].
      exists l1, tm', (l2 ++ [tm]). subst l.
      rewrite <- app_assoc, map_app, in_app_iff. cbn. tauto.
Qed.

Lemma last_sample_split (l1 l2 : list timer) (tm : timer) :
  ~ In (name tm) (map name l2) ->
  last_sample (name tm) (l1 ++ tm :: l2) = Some tm.
Proof.
  unfold last_sample. induction l2 as [|x l2 IH] using rev_ind; intros Hnot.
  - rewrite rev_unit. cbn. now rewrite String.eqb_refl.
  - rewrite map_app, in_app_iff in Hnot. cbn in Hnot.
    change (l1 ++ tm :: l2 ++ [x]) with (l1 ++ (tm :: l2) ++ [x]).
    rewrite app_assoc, rev_unit. cbn.
    destruct (String.eqb (name x) (name tm)) eqn:E.
    + apply String.eqb_eq in E. tauto.
    + apply IH. tauto.
Qed.

(** What [timers] holds under the name of a sample that no later sample
    of that name follows. *)
Lemma get_last_sample (r : request) (l l1 l2 : list timer) (tm : timer) :
  timers r = Some l -> l = l1 ++ tm :: l2 ->
  ~ In (name tm) (map name l2) -> name tm <> "__proto__" ->
  lookup (serialized_timers (Obj r)) (name tm)
  = Some (VPrim (hrtime_ms (time tm))).
Proof.
  intros Hl -> Hnot Hp. rewrite serialized_timers_fold. cbn [timers_or_empty].
  rewrite Hl, lookup_fold_record_timer.
  apply String.eqb_neq in Hp. rewrite Hp.
  now rewrite last_sample_split by exact Hnot.
Qed.

(** C1, as amended.  For a request whose [timers] list is [l], every phase
    name of [l] other than ["__proto__"] is a key of the serialized
    [timers] object.  For every such sample that no later sample of the
    same name follows (every sample, when the names of [l] are pairwise
    distinct), the value under its name is what the doubles of
    [Math.floor(1000 * s + n / 1000000)] give; for [0 <= n < 1e9] and
    [0 <= s <= 8589933] that is exactly [floor (s * 1000 + n / 1e6)]. *)
Theorem req_timers_last_sample (r : request) (l : list timer) :
  timers r = Some l ->
  (forall tm, In tm l -> name tm <> "__proto__" ->
     has_prop (serialized_timers (Obj r)) (name tm) = true) /\
  (forall l1 tm l2, l = l1 ++ tm :: l2 -> ~ In (name tm) (map name l2) ->
     name tm <> "__proto__" ->
     get_prop (serialized_timers (Obj r)) (name tm) =
     VPrim (Double.floor
              (Double.add
                 (Double.mul (Double.of_Z 1000) (Double.of_Z (fst (time tm))))
                 (Double.div (Double.of_Z (snd (time tm)))
                    (Double.of_Z 1000000))))) /\
  (forall l1 tm l2, l = l1 ++ tm :: l2 -> ~ In (name tm) (map name l2) ->
     name tm <> "__proto__" ->
     0 <= fst (time tm) <= 8589933 -> 0 <= snd (time tm) < 1000000000 ->
     get_prop (serialized_timers (Obj r)) (name tm) =
     VNum (Qfloor (inject_Z (fst (time tm)) * 1000
                   + inject_Z (snd (time tm)) / 1000000)%Q)) /\
  (NoDup (map name l) -> forall tm, In tm l -> name tm <> "__proto__" ->
     get_prop (serialized_timers (Obj r)) (name tm) =
     VPrim (Double.floor
              (Double.add
                 (Double.mul (Double.of_Z 1000) (Double.of_Z (fst (time tm))))
                 (Double.div (Double.of_Z (snd (time tm)))
                    (Double.of_Z 1000000))))).
Proof.
  intros Hl. split; [|split; [|split]].
  - intros tm Hin Hp. rewrite serialized_timers_fold. cbn [timers_or_empty].
    rewrite Hl. unfold has_prop. rewrite lookup_fold_record_timer.
    apply String.eqb_neq in Hp. rewrite Hp.
    destruct (last_sample_some l (name tm)) as (l1 & tm' & l2 & _ & _ & _ & ->).
    + now apply in_map.
    + reflexivity.
  - intros l1 tm l2 Heq Hnot Hp. unfold get_prop.
    now rewrite (get_last_sample r l l1 l2 tm Hl Heq Hnot Hp).
  - intros l1 tm l2 Heq Hnot Hp Hs Hn. unfold get_prop.
    rewrite (get_last_sample r l l1 l2 tm Hl Heq Hnot Hp).
    rewrite spec_ms_div. destruct (time tm) as [s n]. cbn [fst snd] in *.
    now rewrite hrtime_ms_exact_normalised.
  - intros Hnd tm Hin Hp. destruct (in_split _ _ Hin) as (l1 & l2 & Heq).
    unfold get_prop. rewrite (get_last_sample r l l1 l2 tm Hl Heq); auto.
    subst l. rewrite map_app in Hnd. cbn in Hnd. apply NoDup_remove_2 in Hnd.
    rewrite in_app_iff in Hnd. tauto.
Qed.

Lemma req_timers_last_sample_witness :
  has_prop (serialized_timers (Obj (sample_request (Some parse_twice))))
    "route" = true /\
  get_prop (serialized_timers (Obj (sample_request (Some parse_twice))))
    "parse" = VNum 2000.
Proof.
  pose proof (req_timers_last_sample (sample_request (Some parse_twice))
                parse_twice eq_refl) as (Hkeys & _ & Hlast & _).
  split.
  - apply (Hkeys {| name := "route"; time := (0, 2500000) |}).
    + cbn. tauto.
    + discriminate.
  - apply (Hlast [ {| name := "parse"; time := (1, 0) |};
                   {| name := "route"; time := (0, 2500000) |} ]
                 {| name := "parse"; time := (2, 999999) |} []).
    + reflexivity.
    + cbn. tauto.
    + discriminate.
    + cbn. lia.
    + cbn. lia.
Defined.

(** C1 as stated fails: with two samples named ["parse"], the value under
    ["parse"] is that of the later sample, so the earlier sample does not
    find its own duration there. *)
Lemma req_timers_every_sample_counterexample :
  ~ (forall tm, In tm parse_twice ->
       get_prop (serialized_timers (Obj (sample_request (Some parse_twice))))
         (name tm) =
       VNum (Qfloor (inject_Z (fst (time tm)) * 1000
                     + inject_Z (snd (time tm)) / 1000000)%Q)).
Proof.
  intros H.
  specialize (H {| name := "parse"; time := (1, 0) |} (or_introl eq_refl)).
  vm_compute in H. discriminate H.
Qed.

(** C9, as amended.  When two or more samples carry the name [nm], and
    [nm] is not ["__proto__"], the serialized [timers] object has the key
    [nm] exactly once, and its value is what the doubles of
    [Math.floor(1000 * s + n / 1000000)] give for the last sample named
    [nm]. *)
Theorem req_timers_duplicate_name (r : request) (l : list timer) (nm : string) :
  timers r = Some l ->
  (2 <= count_occ string_dec (map name l) nm)%nat ->
  nm <> "__proto__" ->
  count_occ string_dec (keys (serialized_timers (Obj r))) nm = 1%nat /\
  exists l1 tm l2,
    l = l1 ++ tm :: l2 /\ name tm = nm /\ ~ In nm (map name l2) /\
    last_sample nm l = Some tm /\
    get_prop (serialized_timers (Obj r)) nm =
    VPrim (Double.floor
             (Double.add
                (Double.mul (Double.of_Z 1000) (Double.of_Z (fst (time tm))))
                (Double.div (Double.of_Z (snd (time tm)))
                   (Double.of_Z 1000000)))).
Proof.
  intros Hl Hcount Hp.
  assert (Hin : In nm (map name l)).
  { apply (count_occ_In string_dec). lia. }
  destruct (last_sample_some l nm Hin) as (l1 & tm & l2 & Heq & Hn & Hnot & Hf).
  assert (Hget : lookup (serialized_timers (Obj r)) nm
                 = Some (VPrim (hrtime_ms (time tm)))).
  { subst nm. now apply (get_last_sample r l l1 l2 tm). }
  split.
  - apply NoDup_count_occ'.
    + rewrite serialized_timers_fold. apply NoDup_keys_fold_record_timer.
      constructor.
    + apply has_prop_keys. unfold has_prop. now rewrite Hget.
  - exists l1, tm, l2. unfold get_prop. rewrite Hget.
    repeat (split; [assumption|]). reflexivity.
Qed.

Lemma req_timers_duplicate_name_witness :
  count_occ string_dec
    (keys (serialized_timers (Obj (sample_request (Some parse_twice)))))
    "parse" = 1%nat /\
  get_prop (serialized_timers (Obj (sample_request (Some parse_twice))))
    "parse" = VNum 2000.
Proof.
  destruct (req_timers_duplicate_name (sample_request (Some parse_twice))
              parse_twice "parse" eq_refl)
    as (Hcount & l1 & tm & l2 & _ & _ & _ & Hlast & Hval).
  - vm_compute. lia.
  - discriminate.
  - split; [exact Hcount|]. rewrite Hval.
    injection Hlast as <-. reflexivity.
Defined.

(** C9 as stated fails for the name ["__proto__"]: two samples carry it,
    and the serialized [timers] object has no such key. *)
Lemma req_timers_proto_counterexample :
  (2 <= count_occ string_dec (map name proto_twice) "__proto__")%nat /\
  count_occ string_dec
    (keys (serialized_timers (Obj (sample_request (Some proto_twice)))))
    "__proto__" = 0%nat.
Proof. split; [vm_compute; lia | reflexivity]. Qed.

(** ** The serializers on absent input, and the response body *)

(** C6.  A falsy request or response (undefined, null, false, 0, NaN, the
    empty string) serializes to [false]; the serializers are total
    functions, so nothing is thrown.  A request without timing samples
    ([timers] absent or an empty list) serializes with [timers] bound to an
    empty object. *)
Theorem serializers_absent_input (p : prim) (opts : Options) (r : request) :
  truthy_prim p = false ->
  timers r = None \/ timers r = Some [] ->
  auditRequestSerializer (Prim p) = VBool false /\
  auditResponseSerializer opts (Prim p) = VBool false /\
  lookup (own_props (auditRequestSerializer (Obj r))) "timers"
    = Some (VObject ObjectProto []).
Proof.
  intros Hp Ht. unfold auditRequestSerializer, auditResponseSerializer.
  cbn [arg_truthy]. rewrite Hp. cbn [negb].
  repeat split. unfold timers_or_empty.
  destruct Ht as [-> | ->]; reflexivity.
Qed.

Lemma serializers_absent_input_witness :
  auditRequestSerializer (Prim PUndefined) = VBool false /\
  auditResponseSerializer (sample_options (VBool true)) (Prim PUndefined)
    = VBool false /\
  lookup (own_props (auditRequestSerializer (Obj (sample_request None))))
    "timers" = Some (VObject ObjectProto []).
Proof.
  apply (serializers_absent_input PUndefined (sample_options (VBool true))
           (sample_request None)).
  - reflexivity.
  - left. reflexivity.
Defined.

(** C2, as amended.  When [options.body] is not [true], the [body]
    property of what the [res] serializer returns is [undefined], whatever
    the response holds. *)
Theorem res_body_undefined_when_disabled (opts : Options) (res : arg response) :
  strict_eq_true (body opts) = false ->
  member (auditResponseSerializer opts res) "body" = VUndefined.
Proof.
  intros Hoff. unfold auditResponseSerializer. rewrite Hoff.
  destruct (arg_truthy res); reflexivity.
Qed.

Lemma res_body_undefined_when_disabled_witness :
  member (auditResponseSerializer (sample_options (VNum 1))
            (Obj (sample_response (VStr "hello") no_headers))) "body"
  = VUndefined.
Proof.
  apply (res_body_undefined_when_disabled (sample_options (VNum 1))).
  reflexivity.
Defined.

(** C2 as stated fails: the returned object literal always has the key
    [body]; with capture disabled the key is there and bound to
    [undefined]. *)
Lemma res_body_field_counterexample :
  strict_eq_true (body (sample_options (VBool false))) = false /\
  has_prop
    (own_props (auditResponseSerializer (sample_options (VBool false))
                  (Obj (sample_response (VStr "hello") no_headers))))
    "body" = true /\
  keys
    (own_props (auditResponseSerializer (sample_options (VBool false))
                  (Obj (sample_response (VStr "hello") no_headers))))
  = ["statusCode"; "body"].
Proof. repeat split. Qed.

(** C3.  With [options.body === true], a captured body that is an
    [HttpError] instance holding payload [p] under [body] serializes to
    [p]; a captured body that is not an [HttpError] instance serializes to
    itself. *)
Theorem res_body_when_enabled (opts : Options) (r : response) :
  strict_eq_true (body opts) = true ->
  (forall fs p, _body r = VObject HttpErrorProto fs ->
                lookup fs "body" = Some p ->
     member (auditResponseSerializer opts (Obj r)) "body" = p) /\
  (instanceof_HttpError (_body r) = false ->
     member (auditResponseSerializer opts (Obj r)) "body" = _body r).
Proof.
  intros Hon. unfold auditResponseSerializer. rewrite Hon.
  cbn [arg_truthy negb field]. split.
  - intros fs p -> Hp. cbn. unfold get_prop. now rewrite Hp.
  - intros ->. reflexivity.
Qed.

Lemma res_body_when_enabled_witness :
  member (auditResponseSerializer (sample_options (VBool true))
            (Obj (sample_response sample_http_error no_headers))) "body"
  = sample_payload /\
  member (auditResponseSerializer (sample_options (VBool true))
            (Obj (sample_response (VStr "hello") no_headers))) "body"
  = VStr "hello".
Proof.
  split.
  - apply (proj1 (res_body_when_enabled (sample_options (VBool true))
                    (sample_response sample_http_error no_headers) eq_refl)
             [("body", sample_payload); ("statusCode", VNum 404)]);
      reflexivity.
  - apply (proj2 (res_body_when_enabled (sample_options (VBool true))
                    (sample_response (VStr "hello") no_headers) eq_refl)).
    reflexivity.
Defined.

(** ** The audit callback *)

Lemma skipn_length_app {A : Type} (l l' : list A) :
  skipn (List.length l) (l ++ l') = l'.
Proof. induction l; cbn; auto. Qed.

Lemma audit_run (lg : log_target) (req : request) (res : response)
    (route err : value) (w : world) :
  audit lg req res route err w =
  (Return (VBool true),
   {| now := now w;
      trace := trace w ++
        [ELog lg Info
           (AuditFields
              {| obj_req := req; obj_res := res; obj_err := err;
                 obj_latency :=
                   if String.eqb (typeof (get res "Response-Time")) "number"
                   then get res "Response-Time"
                   else VNum (now w - _time req) |})
           "handled: %d" [statusCode res]] |}).
Proof.
  unfold audit, bind, log_call, emit, date_now, ret.
  destruct (String.eqb (typeof (get res "Response-Time")) "number");
    reflexivity.
Qed.


(** C7.  Every call of the audit callback returns [true] and adds exactly
    one entry to the log: level info, fields [req], [res], [err] and
    [latency], format ["handled: %d"] applied to [res.statusCode]. *)
Theorem audit_logs_once_returns_true (std : value -> value) (opts : Options)
    (req : request) (res : response) (route err : value) (w : world) :
  exists latency,
    auditLogger std opts req res route err w =
    (Return (VBool true),
     {| now := now w;
        trace := trace w ++
          [ELog (audit_child std opts) Info
             (AuditFields {| obj_req := req; obj_res := res; obj_err := err;
                             obj_latency := latency |})
             "handled: %d" [statusCode res]] |}).
Proof. eexists. unfold auditLogger. apply audit_run. Qed.

(** ** startServer *)

Lemma startServer_run (rt : Runtime) (appName port : value)
    (logger : arg Logger) (w : world) :
  truthy appName = true -> arg_truthy logger = true -> truthy port = true ->
  createServer_check rt appName logger = None ->
  listen_check rt port = None ->
  startServer rt appName port logger w =
  (Return
     {| server_name := appName;
        server_log := logger;
        server_handleUncaughtExceptions := false;
        server_pre := [cors_preflight cors];
        server_use := [cors_actual cors; acceptParser;
                       queryParser true; bodyParser true];
        server_routes :=
          [ {| route_method := "GET"; route_path := "/_status";
               route_run := _getServerStatus |};
            {| route_method := "GET"; route_path := "/api/admin/_routes";
               route_run := _listDefinedRoutes |} ];
        server_on := [("uncaughtException", serverUncaughtExp logger)] |},
   {| now := now w;
      trace := trace w ++
        [ EListen appName port (ServerStarted logger);
          EProcessOn "uncaughtException" (processUncaughtExp logger) ] |}).
Proof.
  intros Ha Hl Hp Hc Hs. unfold startServer. rewrite Ha, Hl, Hp. cbn.
  unfold bind, Restify.createServer, Restify.listen, emit, ret.
  rewrite Hc, Hs. cbn. now rewrite <- app_assoc.
Qed.

Lemma startServer_throws (rt : Runtime) (appName port : value)
    (logger : arg Logger) (w : world) :
  startServer rt appName port logger w =
  if negb (truthy appName) then
    (Throw (TypeError (require_parameter "appName")), w)
  else if negb (arg_truthy logger) then
    (Throw (TypeError (require_parameter "logger")), w)
  else if negb (truthy port) then
    (Throw (TypeError (require_parameter "port")), w)
  else startServer rt appName port logger w.
Proof.
  unfold startServer.
  destruct (truthy appName), (arg_truthy logger), (truthy port); reflexivity.
Qed.

(** After the three guards, what happens is up to the two library calls. *)
Lemma startServer_library (rt : Runtime) (appName port : value)
    (logger : arg Logger) (w : world) :
  truthy appName = true -> arg_truthy logger = true -> truthy port = true ->
  (forall e, createServer_check rt appName logger = Some e ->
             startServer rt appName port logger w = (Throw e, w)) /\
  (forall e, createServer_check rt appName logger = None ->
             listen_check rt port = Some e ->
             startServer rt appName port logger w = (Throw e, w)).
Proof.
  intros Ha Hl Hp. unfold startServer. rewrite Ha, Hl, Hp. cbn.
  unfold bind, Restify.createServer, Restify.listen, throw, ret.
  split.
  - intros e ->. reflexivity.
  - intros e -> ->. reflexivity.
Qed.

Lemma startServer_returns (rt : Runtime) (appName port : value)
    (logger : arg Logger) (w w' : world) (srv : Server) :
  startServer rt appName port logger w = (Return srv, w') ->
  truthy appName = true /\ arg_truthy logger = true /\ truthy port = true /\
  createServer_check rt appName logger = None /\ listen_check rt port = None.
Proof.
  rewrite startServer_throws.
  destruct (truthy appName) eqn:Ha; [|discriminate].
  destruct (arg_truthy logger) eqn:Hl; [|discriminate].
  destruct (truthy port) eqn:Hp; [|discriminate].
  cbn [negb].
  destruct (startServer_library rt appName port logger w Ha Hl Hp) as [H1 H2].
  destruct (createServer_check rt appName logger) as [e|] eqn:Hc.
  - rewrite (H1 e eq_refl). discriminate.
  - destruct (listen_check rt port) as [e|] eqn:Hs.
    + rewrite (H2 e eq_refl eq_refl). discriminate.
    + tauto.
Qed.

Lemma startServer_throw_keeps_world (rt : Runtime) (appName port : value)
    (logger : arg Logger) (w w' : world) (e : exn) :
  startServer rt appName port logger w = (Throw e, w') -> w' = w.
Proof.
  rewrite startServer_throws.
  destruct (truthy appName) eqn:Ha; [|now intros [= _ <-]].
  destruct (arg_truthy logger) eqn:Hl; [|now intros [= _ <-]].
  destruct (truthy port) eqn:Hp; [|now intros [= _ <-]].
  cbn [negb].
  destruct (startServer_library rt appName port logger w Ha Hl Hp) as [H1 H2].
  destruct (createServer_check rt appName logger) as [e1|] eqn:Hc.
  - rewrite (H1 e1 eq_refl). now intros [= _ <-].
  - destruct (listen_check rt port) as [e1|] eqn:Hs.
    + rewrite (H2 e1 eq_refl eq_refl). now intros [= _ <-].
    + rewrite (startServer_run rt _ _ _ w Ha Hl Hp Hc Hs). discriminate.
Qed.

(** C4.  When one of [appName], [port], [logger] is falsy, [startServer]
    throws a [TypeError]; whenever it throws, it leaves the world as it
    found it: no socket has been opened.  When all three are truthy and
    restify and Node accept them ([createServer] and [listen] do not
    throw), it returns the server, named [appName] and logging to
    [logger], after opening the socket on [port]. *)
Theorem startServer_requires_parameters (rt : Runtime) (appName port : value)
    (logger : arg Logger) (w : world) :
  (truthy appName = false \/ truthy port = false \/ arg_truthy logger = false ->
   exists msg,
     startServer rt appName port logger w = (Throw (TypeError msg), w)) /\
  (forall e w',
     startServer rt appName port logger w = (Throw e, w') -> w' = w) /\
  (truthy appName = true -> truthy port = true -> arg_truthy logger = true ->
   createServer_check rt appName logger = None ->
   listen_check rt port = None ->
   exists srv w',
     startServer rt appName port logger w = (Return srv, w') /\
     server_name srv = appName /\ server_log srv = logger /\
     In (EListen appName port (ServerStarted logger))
        (emitted (startServer rt appName port logger) w)).
Proof.
  split; [|split].
  - intros H. rewrite startServer_throws.
    destruct (truthy appName); [|eexists; reflexivity].
    destruct (arg_truthy logger); [|eexists; reflexivity].
    destruct (truthy port); [|eexists; reflexivity].
    destruct H as [H | [H | H]]; discriminate H.
  - intros e w'. apply startServer_throw_keeps_world.
  - intros Ha Hp Hl Hc Hs. unfold emitted.
    rewrite (startServer_run rt appName port logger w Ha Hl Hp Hc Hs).
    do 2 eexists. split; [reflexivity|]. cbn [server_name server_log snd trace].
    rewrite skipn_length_app. cbn. tauto.
Qed.

Lemma startServer_requires_parameters_witness :
  (exists msg,
     startServer strict_runtime (VStr "app") (VNum 0) (Obj sample_logger)
       sample_world
     = (Throw (TypeError msg), sample_world)) /\
  (exists srv w',
     startServer strict_runtime (VStr "app") (VNum 8080) (Obj sample_logger)
       sample_world
     = (Return srv, w') /\
     server_name srv = VStr "app" /\ server_log srv = Obj sample_logger /\
     In (EListen (VStr "app") (VNum 8080) (ServerStarted (Obj sample_logger)))
        (emitted (startServer strict_runtime (VStr "app") (VNum 8080)
                    (Obj sample_logger))
           sample_world)).
Proof.
  split.
  - apply (proj1 (startServer_requires_parameters strict_runtime (VStr "app")
                    (VNum 0) (Obj sample_logger) sample_world)).
    right. left. reflexivity.
  - apply (proj2 (proj2 (startServer_requires_parameters strict_runtime
                           (VStr "app") (VNum 8080) (Obj sample_logger)
                           sample_world))); reflexivity.
Defined.

(** C10.  The parameters are checked in the order [appName], [logger],
    [port]: the [TypeError] thrown names the first falsy one in that
    order, whatever the later ones are. *)
Theorem startServer_validation_order (rt : Runtime) (appName port : value)
    (logger : arg Logger) (w : world) :
  (truthy appName = false ->
   startServer rt appName port logger w
   = (Throw (TypeError
        "Require parameter appName in startServer(appName,port,logger)"), w)) /\
  (truthy appName = true -> arg_truthy logger = false ->
   startServer rt appName port logger w
   = (Throw (TypeError
        "Require parameter logger in startServer(appName,port,logger)"), w)) /\
  (truthy appName = true -> arg_truthy logger = true -> truthy port = false ->
   startServer rt appName port logger w
   = (Throw (TypeError
        "Require parameter port in startServer(appName,port,logger)"), w)).
Proof.
  rewrite startServer_throws. repeat split.
  - intros ->. reflexivity.
  - intros -> ->. reflexivity.
  - intros -> -> ->. reflexivity.
Qed.

Lemma startServer_validation_order_witness :
  startServer strict_runtime VUndefined (VNum 0) (Prim PNull) sample_world
  = (Throw (TypeError (require_parameter "appName")), sample_world) /\
  startServer strict_runtime (VStr "app") (VNum 0) (Prim PNull) sample_world
  = (Throw (TypeError (require_parameter "logger")), sample_world) /\
  startServer strict_runtime (VStr "app") (VNum 0) (Obj sample_logger)
    sample_world
  = (Throw (TypeError (require_parameter "port")), sample_world).
Proof.
  split; [|split].
  - apply (proj1 (startServer_validation_order strict_runtime VUndefined
                    (VNum 0) (Prim PNull) sample_world)). reflexivity.
  - apply (proj1 (proj2 (startServer_validation_order strict_runtime
                           (VStr "app") (VNum 0) (Prim PNull) sample_world)));
      reflexivity.
  - apply (proj2 (proj2 (startServer_validation_order strict_runtime
                           (VStr "app") (VNum 0) (Obj sample_logger)
                           sample_world))); reflexivity.
Defined.

(** ** Uncaught exceptions *)

(** What the process-level handler does when Node calls it. *)
Lemma processUncaughtExp_run (lg : Logger) (err : value) (w : world) :
  run_processUncaughtExp (processUncaughtExp (Obj lg)) err w =
  (Exit 1,
   {| now := now w;
      trace := trace w ++
        [ELog (Direct lg) Fatal (ErrFields err)
           "Uncaught fatal exception, process will exit now." []] |}).
Proof. reflexivity. Qed.

(** What the server-level handler does when restify calls it. *)
Lemma serverUncaughtExp_run (lg : Logger) (req : request) (res : response)
    (route err : value) (w : world) :
  run_serverUncaughtExp (serverUncaughtExp (Obj lg)) req res route err w =
  (Return tt,
   {| now := now w;
      trace := trace w ++
        [ELog (Direct lg) Error (ErrFields err) "uncaughtException" [];
         ESend res err] |}).
Proof.
  cbn. unfold bind, log_call, Restify.send, emit. cbn.
  now rewrite <- app_assoc.
Qed.

Lemma process_listeners_app (w : world) (es : list event) :
  process_listeners {| now := now w; trace := trace w ++ es |}
  = process_listeners w ++ process_handlers es.
Proof. unfold process_listeners, process_handlers. cbn. apply flat_map_app. Qed.

(** C8, at the failing input.  On a server that [startServer] returned
    (the process had no handler before), an exception thrown by a route
    handler does not reach [serverUncaughtExp]: the server was made
    without [handleUncaughtExceptions], so the exception arrives at
    [processUncaughtExp], which logs it at level fatal and exits with
    code 1.  Nothing is logged at level error and no response is sent. *)
Theorem request_exception_exits_process (rt : Runtime)
    (appName port : value) (lg : Logger) (w w' : world) (srv : Server)
    (req : request) (res : response) (route err : value) :
  startServer rt appName port (Obj lg) w = (Return srv, w') ->
  process_listeners w = [] ->
  server_handleUncaughtExceptions srv = false /\
  server_on srv = [("uncaughtException", serverUncaughtExp (Obj lg))] /\
  handler_threw srv req res route err w' =
  (Exit 1,
   {| now := now w';
      trace := trace w' ++
        [ELog (Direct lg) Fatal (ErrFields err)
           "Uncaught fatal exception, process will exit now." []] |}).
Proof.
  intros Hrun Hnone.
  destruct (startServer_returns _ _ _ _ _ _ _ Hrun) as (Ha & Hl & Hp & Hc & Hs).
  rewrite (startServer_run rt _ _ _ w Ha Hl Hp Hc Hs) in Hrun.
  injection Hrun as <- <-.
  split; [reflexivity|]. split; [reflexivity|].
  unfold handler_threw. cbn [server_handleUncaughtExceptions].
  unfold process_uncaught. rewrite process_listeners_app, Hnone.
  reflexivity.
Qed.

Lemma request_exception_exits_process_witness :
  exists srv w',
    startServer strict_runtime (VStr "app") (VNum 8080) (Obj sample_logger)
      sample_world = (Return srv, w') /\
    handler_threw srv (sample_request None)
      (sample_response VNull no_headers) VNull (VStr "boom") w' =
    (Exit 1,
     {| now := now w';
        trace := trace w' ++
          [ELog (Direct sample_logger) Fatal (ErrFields (VStr "boom"))
             "Uncaught fatal exception, process will exit now." []] |}).
Proof.
  do 2 eexists. split; [cbv; reflexivity|].
  apply (request_exception_exits_process strict_runtime (VStr "app")
           (VNum 8080) sample_logger sample_world _ _
           (sample_request None) (sample_response VNull no_headers)
           VNull (VStr "boom") eq_refl eq_refl).
Defined.

(** ** Concrete runs *)

Example serialize_parse_twice :
  auditRequestSerializer (Obj (sample_request (Some parse_twice))) =
  VObject ObjectProto
    [ ("method", VStr "GET");
      ("url", VStr "/a");
      ("timers", VObject ObjectProto
                   [("parse", VNum 2000); ("route", VNum 2)]) ].
Proof. reflexivity. Qed.

Example serialize_truthy_primitive :
  auditRequestSerializer (Prim (PNum 5)) =
  VObject ObjectProto
    [ ("method", VUndefined); ("url", VUndefined);
      ("timers", VObject ObjectProto []) ].
Proof. reflexivity. Qed.

Example serialize_error_body :
  auditResponseSerializer (sample_options (VBool true))
    (Obj (sample_response sample_http_error no_headers)) =
  VObject ObjectProto [("statusCode", VNum 200); ("body", sample_payload)].
Proof. reflexivity. Qed.

Example capture_needs_the_boolean_true :
  auditResponseSerializer (sample_options (VStr "true"))
    (Obj (sample_response (VStr "hello") no_headers)) =
  VObject ObjectProto [("statusCode", VNum 200); ("body", VUndefined)].
Proof. reflexivity. Qed.

Example latency_from_header :
  emitted (audit (Direct sample_logger) (sample_request None)
             (sample_response VNull (response_time 12)) VNull VUndefined)
    sample_world =
  [ELog (Direct sample_logger) Info
     (AuditFields
        {| obj_req := sample_request None;
           obj_res := sample_response VNull (response_time 12);
           obj_err := VUndefined; obj_latency := VNum 12 |})
     "handled: %d" [VNum 200]].
Proof. reflexivity. Qed.

Example latency_from_clock :
  emitted (audit (Direct sample_logger) (sample_request None)
             (sample_response VNull no_headers) VNull VUndefined)
    sample_world =
  [ELog (Direct sample_logger) Info
     (AuditFields
        {| obj_req := sample_request None;
           obj_res := sample_response VNull no_headers;
           obj_err := VUndefined; obj_latency := VNum 500 |})
     "handled: %d" [VNum 200]].
Proof. reflexivity. Qed.

Example primitive_logger_cannot_log :
  run_processUncaughtExp (processUncaughtExp (Prim (PNum 1))) VNull
    sample_world =
  (Throw (TypeError "logger method is not a function"), sample_world).
Proof. reflexivity. Qed.

Example routes_listing (info : Server -> value) :
  exists srv w,
    startServer strict_runtime (VStr "app") (VNum 8080) (Obj sample_logger)
      sample_world
    = (Return srv, w) /\
    emitted (run_route_handler info _listDefinedRoutes srv
               (sample_request None) (sample_response VNull no_headers))
      sample_world =
    [ESend (sample_response VNull no_headers)
       (VObject ObjectProto
          [ ("GET", VArray [VStr "/_status"; VStr "/api/admin/_routes"]);
            ("PUT", VArray []); ("DELETE", VArray []);
            ("POST", VArray []) ])].
Proof. do 2 eexists. split; [cbv; reflexivity | reflexivity]. Qed.

Example proto_name_is_dropped :
  auditRequestSerializer (Obj (sample_request (Some proto_and_route))) =
  VObject ObjectProto
    [ ("method", VStr "GET");
      ("url", VStr "/a");
      ("timers", VObject ObjectProto [("route", VNum 2)]) ].
Proof. reflexivity. Qed.

Example index_names_come_first :
  keys (serialized_timers (Obj (sample_request (Some index_names))))
  = ["1"; "2"; "10"; "b"; "01"].
Proof. reflexivity. Qed.

Example rounds_up_beyond_the_range :
  hrtime_ms (17179870, 999999) = PNum 17179870001 /\
  ms_reference 17179870 999999 = Some 17179870001 /\
  hrtime_ms (17179870, 999999999) = PNum 17179871000 /\
  ms_reference 17179870 999999999 = Some 17179871000.
Proof. repeat split; vm_compute; reflexivity. Qed.

Example equal_durations_different_milliseconds :
  hrtime_ns (24723598, 5172701757999998) = hrtime_ns (29896299, 757999998) /\
  hrtime_ms (24723598, 5172701757999998) = PNum 29896299758 /\
  ms_reference 24723598 5172701757999998 = Some 29896299758 /\
  hrtime_ms (29896299, 757999998) = PNum 29896299757 /\
  ms_reference 29896299 757999998 = Some 29896299757.
Proof. repeat split; vm_compute; reflexivity. Qed.

Example agrees_with_reference_in_range :
  hrtime_ms (8589933, 999999999) = PNum 8589933999 /\
  ms_reference 8589933 999999999 = Some 8589933999 /\
  hrtime_ms (1, 1) = PNum 1000 /\
  ms_reference 1 1 = Some 1000 /\
  hrtime_ms (3, 141592653) = PNum 3141 /\
  ms_reference 3 141592653 = Some 3141.
Proof. repeat split; vm_compute; reflexivity. Qed.

Example overflow_is_infinity :
  hrtime_ms (2 ^ 1024, 0) = PInf false.
Proof. vm_compute. reflexivity. Qed.

Example invalid_port_is_refused :
  startServer strict_runtime (VStr "app") (VNum (-1)) (Obj sample_logger)
    sample_world =
  (Throw (RangeError "options.port should be >= 0 and < 65536"),
   sample_world).
Proof. reflexivity. Qed.

Example primitive_logger_is_refused :
  startServer strict_runtime (VStr "app") (VNum 8080) (Prim (PNum 1))
    sample_world =
  (Throw (AssertionError "options.log (object) is required"), sample_world).
Proof. reflexivity. Qed.

Example with_domains_the_server_handler_answers :
  handler_threw domain_server (sample_request None)
    (sample_response VNull no_headers) VNull (VStr "boom") sample_world =
  (Return tt,
   {| now := 1500;
      trace :=
        [ ELog (Direct sample_logger) Error (ErrFields (VStr "boom"))
            "uncaughtException" [];
          ESend (sample_response VNull no_headers) (VStr "boom") ] |}).
Proof. reflexivity. Qed.

Example listing_skips_patch :
  listing_of
    (emitted (run_route_handler (fun _ => VNull) _listDefinedRoutes
                sample_server (sample_request None)
                (sample_response VNull no_headers)) sample_world) =
  [ ("GET", VArray []); ("PUT", VArray []); ("DELETE", VArray []);
    ("POST", VArray [VStr "/b"]) ].
Proof. reflexivity. Qed.

(** * Further properties of the code *)

(** ** The millisecond conversion *)

(** X17.  Inside the range where a double still resolves [2^-20] (the sum
    below [2^33], the operands integers below [2^53]), the doubles of
    [Math.floor(1000 * s + n / 1000000)] give the exact
    [floor (s * 1000 + n / 1e6)]. *)
Theorem hrtime_ms_exact_in_range (s n : Z) :
  0 <= s -> 0 <= n < 2 ^ 53 -> 1000 * s + n / 1000000 + 1 <= 2 ^ 33 ->
  Double.floor
    (Double.add (Double.mul (Double.of_Z 1000) (Double.of_Z s))
                (Double.div (Double.of_Z n) (Double.of_Z 1000000)))
  = PNum (Qfloor (inject_Z s * 1000 + inject_Z n / 1000000)%Q).
Proof.
  intros Hs Hn Hr. rewrite spec_ms_div.
  exact (hrtime_ms_exact s n Hs Hn Hr).
Qed.

Lemma hrtime_ms_exact_in_range_witness :
  Double.floor
    (Double.add (Double.mul (Double.of_Z 1000) (Double.of_Z 8589933))
                (Double.div (Double.of_Z 999999999) (Double.of_Z 1000000)))
  = PNum (Qfloor (inject_Z 8589933 * 1000 + inject_Z 999999999 / 1000000)%Q).
Proof.
  apply (hrtime_ms_exact_in_range 8589933 999999999).
  - lia.
  - split; [lia | reflexivity].
  - vm_compute. discriminate.
Defined.

(** X1.  For a pair as [process.hrtime] returns it, up to 8589933
    seconds, the conversion truncates to whole milliseconds: the result,
    taken back to nanoseconds, is at most the duration and less than one
    millisecond below it. *)
Theorem hrtime_ms_truncates (s n : Z) :
  0 <= s <= 8589933 -> 0 <= n < 1000000000 ->
  exists ms,
    hrtime_ms (s, n) = PNum ms /\
    ms * 1000000 <= hrtime_ns (s, n) < (ms + 1) * 1000000.
Proof.
  intros Hs Hn. exists (1000 * s + n / 1000000).
  split; [now apply hrtime_ms_exact_normalised|].
  unfold hrtime_ns. cbn [fst snd].
  pose proof (Z.div_mod n 1000000 ltac:(lia)) as Hdm.
  pose proof (Z.mod_pos_bound n 1000000 ltac:(lia)) as Hb.
  lia.
Qed.

Lemma hrtime_ms_truncates_witness :
  exists ms,
    hrtime_ms (2, 999999) = PNum ms /\
    ms * 1000000 <= hrtime_ns (2, 999999) < (ms + 1) * 1000000.
Proof. apply (hrtime_ms_truncates 2 999999); lia. Defined.

(** X2.  Among such pairs the conversion is monotone: a duration that is
    not longer does not get a larger number of milliseconds. *)
Theorem hrtime_ms_monotone (s n s' n' : Z) :
  0 <= s <= 8589933 -> 0 <= n < 1000000000 ->
  0 <= s' <= 8589933 -> 0 <= n' < 1000000000 ->
  hrtime_ns (s, n) <= hrtime_ns (s', n') ->
  exists ms ms',
    hrtime_ms (s, n) = PNum ms /\ hrtime_ms (s', n') = PNum ms' /\ ms <= ms'.
Proof.
  intros Hs Hn Hs' Hn' Hle.
  exists (1000 * s + n / 1000000), (1000 * s' + n' / 1000000).
  split; [now apply hrtime_ms_exact_normalised|].
  split; [now apply hrtime_ms_exact_normalised|].
  unfold hrtime_ns in Hle. cbn [fst snd] in Hle.
  replace (1000 * s + n / 1000000) with ((s * 1000000000 + n) / 1000000).
  - replace (1000 * s' + n' / 1000000)
      with ((s' * 1000000000 + n') / 1000000).
    + apply Z.div_le_mono; lia.
    + replace (s' * 1000000000 + n') with (1000 * s' * 1000000 + n') by lia.
      now rewrite Z.div_add_l by lia.
  - replace (s * 1000000000 + n) with (1000 * s * 1000000 + n) by lia.
    now rewrite Z.div_add_l by lia.
Qed.

Lemma hrtime_ms_monotone_witness :
  exists ms ms',
    hrtime_ms (1, 999999999) = PNum ms /\ hrtime_ms (2, 0) = PNum ms' /\
    ms <= ms'.
Proof.
  apply (hrtime_ms_monotone 1 999999999 2 0); try lia.
  vm_compute. discriminate.
Defined.

(** X3.  For such a pair the seconds are kept exactly and the
    nanoseconds become the milliseconds below 1000. *)
Theorem hrtime_ms_seconds_and_millis (s n : Z) :
  0 <= s <= 8589933 -> 0 <= n < 1000000000 ->
  exists ms,
    hrtime_ms (s, n) = PNum ms /\
    ms / 1000 = s /\ ms mod 1000 = n / 1000000 /\ 0 <= n / 1000000 < 1000.
Proof.
  intros Hs Hn. exists (1000 * s + n / 1000000).
  split; [now apply hrtime_ms_exact_normalised|].
  assert (Hq : 0 <= n / 1000000 < 1000).
  { split; [apply Z.div_pos; lia | apply Z.div_lt_upper_bound; lia]. }
  repeat split; try lia.
  - symmetry. apply (Z.div_unique_pos _ _ s (n / 1000000)); lia.
  - symmetry. apply (Z.mod_unique_pos _ _ s (n / 1000000)); lia.
Qed.

Lemma hrtime_ms_seconds_and_millis_witness :
  exists ms,
    hrtime_ms (2, 999999) = PNum ms /\
    ms / 1000 = 2 /\ ms mod 1000 = 999999 / 1000000 /\
    0 <= 999999 / 1000000 < 1000.
Proof. apply (hrtime_ms_seconds_and_millis 2 999999); lia. Defined.

(** ** The timers object, for every argument of the serializer *)

Lemma serialized_timers_any (req : arg request) :
  serialized_timers req = fold_left record_timer (timers_or_empty req) [].
Proof.
  destruct req as [p | r]; [|reflexivity].
  unfold serialized_timers, auditRequestSerializer. cbn [arg_truthy].
  destruct (truthy_prim p); reflexivity.
Qed.

Lemma last_sample_in (nm : string) (l : list timer) (tm : timer) :
  last_sample nm l = Some tm -> In tm l /\ name tm = nm.
Proof.
  unfold last_sample. intros Hf. apply find_some in Hf.
  destruct Hf as [Hin Heq]. apply in_rev in Hin.
  apply String.eqb_eq in Heq. tauto.
Qed.

Lemma length_keys_fold_record_timer (l : list timer) (acc : props) :
  (List.length (keys (fold_left record_timer l acc))
   <= List.length (keys acc) + List.length l)%nat.
Proof.
  revert acc. induction l as [|tm l IH]; intros acc; cbn [fold_left].
  - cbn. lia.
  - specialize (IH (record_timer acc tm)).
    assert (Hstep : (List.length (keys (record_timer acc tm))
                     <= S (List.length (keys acc)))%nat).
    { unfold record_timer.
      rewrite (Permutation_length (keys_set_prop acc (name tm) _)).
      destruct (String.eqb (name tm) "__proto__" || has_prop acc (name tm));
        cbn; lia. }
    cbn [List.length]. lia.
Qed.

(** X4.  The keys of the serialized [timers] object are the phase names of
    the samples other than ["__proto__"]: each such name is a key, each
    key is such a name, no key occurs twice, and there are no more keys
    than samples. *)
Theorem serialized_timers_keys (req : arg request) :
  NoDup (keys (serialized_timers req)) /\
  (forall k, In k (keys (serialized_timers req))
             <-> In k (map name (timers_or_empty req)) /\ k <> "__proto__") /\
  (List.length (keys (serialized_timers req))
   <= List.length (timers_or_empty req))%nat.
Proof.
  rewrite serialized_timers_any. split; [|split].
  - apply NoDup_keys_fold_record_timer. constructor.
  - intros k. rewrite <- has_prop_keys. unfold has_prop.
    rewrite lookup_fold_record_timer.
    destruct (String.eqb k "__proto__") eqn:Ep.
    + apply String.eqb_eq in Ep. cbn. split; [discriminate | tauto].
    + apply String.eqb_neq in Ep. split.
      * destruct (last_sample k (timers_or_empty req)) as [tm|] eqn:E.
        -- intros _. apply last_sample_in in E. destruct E as [Hin <-].
           split; [now apply in_map | exact Ep].
        -- cbn. discriminate.
      * intros [Hin _].
        destruct (last_sample_some _ _ Hin) as (_ & tm & _ & _ & _ & _ & ->).
        reflexivity.
  - apply (length_keys_fold_record_timer (timers_or_empty req) []).
Qed.

(** X5.  Every binding of the serialized [timers] object comes from a
    sample of the request: the key is the sample's name and the value is
    what the doubles of [Math.floor(1000 * s + n / 1000000)] give for its
    duration, a number. *)
Theorem serialized_timers_binding (req : arg request) (k : string) (v : value) :
  lookup (serialized_timers req) k = Some v ->
  exists tm, In tm (timers_or_empty req) /\ name tm = k /\
             v = VPrim (Double.floor
                          (Double.add
                             (Double.mul (Double.of_Z 1000)
                                (Double.of_Z (fst (time tm))))
                             (Double.div (Double.of_Z (snd (time tm)))
                                (Double.of_Z 1000000)))) /\
             typeof v = "number".
Proof.
  rewrite serialized_timers_any, lookup_fold_record_timer.
  destruct (String.eqb k "__proto__"); [cbn; discriminate|].
  destruct (last_sample k (timers_or_empty req)) as [tm|] eqn:E.
  - intros [= <-]. apply last_sample_in in E. exists tm.
    repeat (split; [tauto|]). unfold hrtime_ms.
    now destruct (ms_double (fst (time tm)) (snd (time tm))).
  - cbn. discriminate.
Qed.

Lemma serialized_timers_binding_witness :
  exists tm, In tm parse_twice /\ name tm = "route" /\
             VNum 2 = VPrim (Double.floor
                               (Double.add
                                  (Double.mul (Double.of_Z 1000)
                                     (Double.of_Z (fst (time tm))))
                                  (Double.div (Double.of_Z (snd (time tm)))
                                     (Double.of_Z 1000000)))) /\
             typeof (VNum 2) = "number".
Proof.
  apply (serialized_timers_binding (Obj (sample_request (Some parse_twice)))
           "route" (VNum 2)).
  reflexivity.
Defined.

(** ** The serializers on unusual arguments *)

(** X6.  A truthy primitive passed as request or response (a non-zero
    number, [true], a non-empty string) is serialized like an object
    without fields: every field read is [undefined], the timers are empty,
    and no body is captured even when capture is on. *)
Theorem serializers_truthy_primitive (p : prim) (opts : Options) :
  truthy_prim p = true ->
  auditRequestSerializer (Prim p) =
    VObject ObjectProto
      [ ("method", VUndefined); ("url", VUndefined);
        ("timers", VObject ObjectProto []) ] /\
  auditResponseSerializer opts (Prim p) =
    VObject ObjectProto [("statusCode", VUndefined); ("body", VUndefined)].
Proof.
  intros Hp. unfold auditRequestSerializer, auditResponseSerializer.
  cbn [arg_truthy]. rewrite Hp. cbn.
  now destruct (strict_eq_true (body opts)).
Qed.

Lemma serializers_truthy_primitive_witness :
  auditRequestSerializer (Prim (PStr "req")) =
    VObject ObjectProto
      [ ("method", VUndefined); ("url", VUndefined);
        ("timers", VObject ObjectProto []) ] /\
  auditResponseSerializer (sample_options (VBool true)) (Prim (PStr "req")) =
    VObject ObjectProto [("statusCode", VUndefined); ("body", VUndefined)].
Proof.
  apply (serializers_truthy_primitive (PStr "req") (sample_options (VBool true))).
  reflexivity.
Defined.

(** ** The audit callback, composed *)

(** X8.  Two calls of the audit callback one after the other add two
    entries, in the order of the calls, each with the request and the
    response of its own call; the log written before them is kept. *)
Theorem audit_twice (std : value -> value) (opts : Options)
    (req1 req2 : request) (res1 res2 : response)
    (route1 route2 err1 err2 : value) (w : world) :
  exists o1 o2,
    (auditLogger std opts req1 res1 route1 err1 ;;
     auditLogger std opts req2 res2 route2 err2) w =
    (Return (VBool true),
     {| now := now w;
        trace := trace w ++
          [ ELog (audit_child std opts) Info (AuditFields o1)
              "handled: %d" [statusCode res1];
            ELog (audit_child std opts) Info (AuditFields o2)
              "handled: %d" [statusCode res2] ] |}) /\
    obj_req o1 = req1 /\ obj_res o1 = res1 /\ obj_err o1 = err1 /\
    obj_req o2 = req2 /\ obj_res o2 = res2 /\ obj_err o2 = err2.
Proof.
  unfold auditLogger, bind. rewrite audit_run, audit_run. cbn [now trace].
  rewrite <- app_assoc. cbn [app].
  do 2 eexists. split; [reflexivity|]. cbn. tauto.
Qed.

(** X9.  The entry that the audit callback writes goes to a child of
    [options.log] tagged [audit: true], and the serializers of that child,
    applied to the logged [req] and [res], give [{method, url, timers}]
    with the request's own method and url, and [{statusCode, body}] with
    the response's own status code.  The [err] serializer of the child is
    the one of [options.log] when it has one, and bunyan's otherwise. *)
Theorem audit_entry_serializes (std : value -> value) (opts : Options)
    (req : request) (res : response) (route err0 : value) (w : world) :
  exists copts obj fmt args,
    emitted (auditLogger std opts req res route err0) w
      = [ELog (Child (log opts) copts) Info (AuditFields obj) fmt args] /\
    child_audit copts = true /\
    child_req copts (Obj (obj_req obj)) =
      VObject ObjectProto
        [ ("method", method req); ("url", url req);
          ("timers", VObject ObjectProto (serialized_timers (Obj req))) ] /\
    keys (own_props (child_res copts (Obj (obj_res obj))))
      = ["statusCode"; "body"] /\
    member (child_res copts (Obj (obj_res obj))) "statusCode"
      = statusCode res /\
    (forall f, serializers (log opts) = Some {| err := Some f |} ->
               child_err copts = f) /\
    (serializers (log opts) = None
     \/ serializers (log opts) = Some {| err := None |} ->
     child_err copts = std).
Proof.
  unfold emitted, auditLogger. rewrite audit_run. cbn [snd trace].
  rewrite skipn_length_app. unfold audit_child.
  do 4 eexists. split; [reflexivity|].
  cbn [child_audit child_req child_res child_err obj_req obj_res].
  repeat split.
  - intros f Hf. unfold errSerializer. now rewrite Hf.
  - intros [Hs | Hs]; unfold errSerializer; now rewrite Hs.
Qed.

(** ** startServer, its server and its closures *)

(** X10.  A server that [startServer] returns has the CORS preflight as
    its only [pre] handler, then CORS, accept, query and body parsing in
    this order as [use] handlers (both parsers with [mapParams]), the two
    GET routes [/_status] and [/api/admin/_routes], and one
    [uncaughtException] handler; one socket was opened, for [port], and
    one handler was put on the process. *)
Theorem startServer_configures_server (rt : Runtime) (appName port : value)
    (logger : arg Logger) (w w' : world) (srv : Server) :
  startServer rt appName port logger w = (Return srv, w') ->
  server_pre srv = [cors_preflight cors] /\
  server_use srv =
    [cors_actual cors; acceptParser; queryParser true; bodyParser true] /\
  map (fun r => (route_method r, route_path r, route_run r))
    (server_routes srv) =
    [ ("GET", "/_status", _getServerStatus);
      ("GET", "/api/admin/_routes", _listDefinedRoutes) ] /\
  server_on srv = [("uncaughtException", serverUncaughtExp logger)] /\
  sockets (emitted (startServer rt appName port logger) w)
    = [(appName, port)] /\
  process_handlers (emitted (startServer rt appName port logger) w)
    = [("uncaughtException", processUncaughtExp logger)].
Proof.
  intros Hrun.
  destruct (startServer_returns _ _ _ _ _ _ _ Hrun) as (Ha & Hl & Hp & Hc & Hs).
  unfold emitted. rewrite (startServer_run rt _ _ _ w Ha Hl Hp Hc Hs) in *.
  injection Hrun as <- <-. cbn [snd trace]. rewrite skipn_length_app.
  repeat split.
Qed.

Lemma startServer_configures_server_witness :
  exists srv,
    server_use srv =
      [cors_actual cors; acceptParser; queryParser true; bodyParser true] /\
    sockets (emitted (startServer strict_runtime (VStr "app") (VNum 8080)
                        (Obj sample_logger))
               sample_world)
      = [(VStr "app", VNum 8080)].
Proof.
  eexists.
  pose proof (startServer_configures_server strict_runtime (VStr "app")
                (VNum 8080) (Obj sample_logger) sample_world _ _ eq_refl)
    as (_ & Huse & _ & _ & Hsock & _).
  split; [exact Huse | exact Hsock].
Defined.

(** X11.  Nothing guards against a second start: when two calls in a row
    both return, two sockets were opened and two [uncaughtException]
    handlers were put on the process, in the order of the calls, while
    each server has one handler of its own. *)
Theorem startServer_twice (rt : Runtime) (a1 p1 a2 p2 : value)
    (l1 l2 : arg Logger) (w w' : world) (s1 s2 : Server) :
  (s1 <- startServer rt a1 p1 l1 ;;
   s2 <- startServer rt a2 p2 l2 ;; ret (s1, s2)) w = (Return (s1, s2), w') ->
  sockets (skipn (List.length (trace w)) (trace w'))
    = [(a1, p1); (a2, p2)] /\
  process_handlers (skipn (List.length (trace w)) (trace w'))
    = [ ("uncaughtException", processUncaughtExp l1);
        ("uncaughtException", processUncaughtExp l2) ] /\
  server_on s1 = [("uncaughtException", serverUncaughtExp l1)] /\
  server_on s2 = [("uncaughtException", serverUncaughtExp l2)].
Proof.
  unfold bind at 1.
  destruct (startServer rt a1 p1 l1 w) as [[srv1 | e | c] w1] eqn:H1;
    try discriminate.
  unfold bind.
  destruct (startServer rt a2 p2 l2 w1) as [[srv2 | e | c] w2] eqn:H2;
    try discriminate.
  unfold ret. intros [= <- <- <-].
  destruct (startServer_returns _ _ _ _ _ _ _ H1) as (Ha & Hl & Hp & Hc & Hs).
  rewrite (startServer_run rt _ _ _ w Ha Hl Hp Hc Hs) in H1.
  injection H1 as <- <-.
  destruct (startServer_returns _ _ _ _ _ _ _ H2)
    as (Ha' & Hl' & Hp' & Hc' & Hs').
  rewrite (startServer_run rt _ _ _ _ Ha' Hl' Hp' Hc' Hs') in H2.
  injection H2 as <- <-. cbn [trace now server_on].
  rewrite <- app_assoc, skipn_length_app. repeat split.
Qed.

Lemma startServer_twice_witness :
  exists s1 s2 w',
    (s1 <- startServer strict_runtime (VStr "a") (VNum 80) (Obj sample_logger) ;;
     s2 <- startServer strict_runtime (VStr "b") (VNum 81) (Obj sample_logger) ;;
     ret (s1, s2)) sample_world = (Return (s1, s2), w') /\
    sockets (skipn (List.length (trace sample_world)) (trace w'))
      = [(VStr "a", VNum 80); (VStr "b", VNum 81)] /\
    process_handlers (skipn (List.length (trace sample_world)) (trace w'))
      = [ ("uncaughtException", processUncaughtExp (Obj sample_logger));
          ("uncaughtException", processUncaughtExp (Obj sample_logger)) ].
Proof.
  do 3 eexists.
  pose proof (startServer_twice strict_runtime (VStr "a") (VNum 80)
                (VStr "b") (VNum 81) (Obj sample_logger) (Obj sample_logger)
                sample_world _ _ _ eq_refl) as (Hs & Hh & _).
  split; [reflexivity|]. split; [exact Hs | exact Hh].
Defined.

(** X12.  For a server that [startServer] was given the logger object
    [lg] for, the callback handed to [listen] writes one line at level
    info to [lg], with format ["Server started %s"] and the server's url,
    and returns. *)
Theorem listen_callback_logs_start (server_url : Server -> value)
    (rt : Runtime) (appName port : value) (lg : Logger) (w w' : world)
    (srv : Server) :
  startServer rt appName port (Obj lg) w = (Return srv, w') ->
  exists cb,
    In (EListen appName port cb)
       (emitted (startServer rt appName port (Obj lg)) w) /\
    forall w0,
      run_listen_callback server_url cb srv w0 =
      (Return tt,
       {| now := now w0;
          trace := trace w0 ++
            [ELog (Direct lg) Info NoFields "Server started %s"
               [server_url srv]] |}).
Proof.
  intros Hrun.
  destruct (startServer_returns _ _ _ _ _ _ _ Hrun) as (Ha & Hl & Hp & Hc & Hs).
  unfold emitted. rewrite (startServer_run rt _ _ _ w Ha Hl Hp Hc Hs).
  cbn [snd trace]. rewrite skipn_length_app.
  eexists. split; [left; reflexivity|]. intros w0. reflexivity.
Qed.

Lemma listen_callback_logs_start_witness :
  exists cb,
    In (EListen (VStr "app") (VNum 8080) cb)
       (emitted (startServer strict_runtime (VStr "app") (VNum 8080)
                   (Obj sample_logger))
          sample_world) /\
    forall w0,
      run_listen_callback (fun s => server_name s) cb
        (fst (match startServer strict_runtime (VStr "app") (VNum 8080)
                      (Obj sample_logger) sample_world with
              | (Return s, w1) => (s, w1)
              | _ => (sample_server, sample_world)
              end)) w0 =
      (Return tt,
       {| now := now w0;
          trace := trace w0 ++
            [ELog (Direct sample_logger) Info NoFields "Server started %s"
               [VStr "app"]] |}).
Proof.
  exact (listen_callback_logs_start (fun s => server_name s) strict_runtime
           (VStr "app") (VNum 8080) sample_logger sample_world _ _ eq_refl).
Defined.

(** ** The administrative routes *)

Lemma listDefinedRoutes_run (info : Server -> value) (srv : Server)
    (req : request) (res : response) (w : world) :
  run_route_handler info _listDefinedRoutes srv req res w =
  (Return tt,
   {| now := now w;
      trace := trace w ++
        [ESend res
           (VObject ObjectProto
              [ ("GET", VArray (map (fun p => VStr p)
                                  (Restify.routes_of srv "GET")));
                ("PUT", VArray (map (fun p => VStr p)
                                  (Restify.routes_of srv "PUT")));
                ("DELETE", VArray (map (fun p => VStr p)
                                     (Restify.routes_of srv "DELETE")));
                ("POST", VArray (map (fun p => VStr p)
                                   (Restify.routes_of srv "POST"))) ])] |}).
Proof. reflexivity. Qed.

Lemma listed_listing (info : Server -> value) (srv : Server)
    (req : request) (res : response) (w : world) (m : string) :
  listed (listing_of
            (emitted (run_route_handler info _listDefinedRoutes srv req res) w))
    m =
  if existsb (String.eqb m) ["GET"; "PUT"; "DELETE"; "POST"]
  then map (fun r => VStr (route_path r))
         (filter (fun r => String.eqb (route_method r) m) (server_routes srv))
  else [].
Proof.
  unfold emitted. rewrite listDefinedRoutes_run. cbn [snd trace].
  rewrite skipn_length_app. cbn [listing_of]. unfold listed, Restify.routes_of.
  cbn [lookup existsb].
  rewrite (String.eqb_sym m "GET"), (String.eqb_sym m "PUT"),
    (String.eqb_sym m "DELETE"), (String.eqb_sym m "POST").
  destruct (String.eqb "GET" m) eqn:E1;
    [apply String.eqb_eq in E1; subst m; cbn [orb]; apply map_map|].
  destruct (String.eqb "PUT" m) eqn:E2;
    [apply String.eqb_eq in E2; subst m; cbn [orb]; apply map_map|].
  destruct (String.eqb "DELETE" m) eqn:E3;
    [apply String.eqb_eq in E3; subst m; cbn [orb]; apply map_map|].
  destruct (String.eqb "POST" m) eqn:E4;
    [apply String.eqb_eq in E4; subst m; cbn [orb]; apply map_map|].
  reflexivity.
Qed.

(** X13.  The route listing has the four keys GET, PUT, DELETE and POST,
    in this order, whatever is registered.  Under each of them stand the
    paths of the routes of that method, each route once, in registration
    order; a route of any other method (PATCH, HEAD, ...) is not listed. *)
Theorem listDefinedRoutes_by_method (info : Server -> value) (srv : Server)
    (req : request) (res : response) (w : world) :
  keys (listing_of
          (emitted (run_route_handler info _listDefinedRoutes srv req res) w))
    = ["GET"; "PUT"; "DELETE"; "POST"] /\
  forall m,
    listed (listing_of
              (emitted (run_route_handler info _listDefinedRoutes srv req res)
                 w)) m =
    if existsb (String.eqb m) ["GET"; "PUT"; "DELETE"; "POST"]
    then map (fun r => VStr (route_path r))
           (filter (fun r => String.eqb (route_method r) m)
              (server_routes srv))
    else [].
Proof.
  split.
  - unfold emitted. rewrite listDefinedRoutes_run. cbn [snd trace].
    rewrite skipn_length_app. reflexivity.
  - intros m. apply listed_listing.
Qed.

(** X14.  Registering a GET route adds its path at the end of the GET
    list of the listing and changes no other list. *)
Theorem listing_after_get_route (info : Server -> value) (srv : Server)
    (path : string) (h : route_handler) (req : request) (res : response)
    (w : world) (m : string) :
  listed (listing_of
            (emitted (run_route_handler info _listDefinedRoutes
                        (Restify.get_route srv path h) req res) w)) m =
  listed (listing_of
            (emitted (run_route_handler info _listDefinedRoutes srv req res)
               w)) m
  ++ (if String.eqb m "GET" then [VStr path] else []).
Proof.
  rewrite !listed_listing. cbn [Restify.get_route server_routes].
  rewrite filter_app, map_app. cbn [filter route_method existsb].
  rewrite (String.eqb_sym "GET" m).
  destruct (String.eqb m "GET") eqn:E; cbn [orb].
  - reflexivity.
  - cbn [map]. destruct (String.eqb m "PUT" || (String.eqb m "DELETE"
                          || (String.eqb m "POST" || false)));
      now rewrite ?app_nil_r.
Qed.

(** X15.  On a server as [startServer] returns it, the listing shows the
    two administrative routes under GET and nothing under the other three
    methods. *)
Theorem listing_of_started_server (info : Server -> value) (rt : Runtime)
    (appName port : value) (logger : arg Logger) (w w' : world)
    (srv : Server) (req : request) (res : response) (w0 : world) :
  startServer rt appName port logger w = (Return srv, w') ->
  listing_of
    (emitted (run_route_handler info _listDefinedRoutes srv req res) w0) =
  [ ("GET", VArray [VStr "/_status"; VStr "/api/admin/_routes"]);
    ("PUT", VArray []); ("DELETE", VArray []); ("POST", VArray []) ].
Proof.
  intros Hrun.
  destruct (startServer_returns _ _ _ _ _ _ _ Hrun) as (Ha & Hl & Hp & Hc & Hs).
  rewrite (startServer_run rt _ _ _ w Ha Hl Hp Hc Hs) in Hrun.
  injection Hrun as <- _.
  unfold emitted. rewrite listDefinedRoutes_run. cbn [snd trace].
  rewrite skipn_length_app. reflexivity.
Qed.

Lemma listing_of_started_server_witness :
  exists srv,
    listing_of
      (emitted (run_route_handler (fun _ => VNull) _listDefinedRoutes srv
                  (sample_request None) (sample_response VNull no_headers))
         sample_world) =
    [ ("GET", VArray [VStr "/_status"; VStr "/api/admin/_routes"]);
      ("PUT", VArray []); ("DELETE", VArray []); ("POST", VArray []) ].
Proof.
  eexists.
  exact (listing_of_started_server (fun _ => VNull) strict_runtime
           (VStr "app") (VNum 8080)
           (Obj sample_logger) sample_world _ _ (sample_request None)
           (sample_response VNull no_headers) sample_world eq_refl).
Defined.

(** X16.  Each administrative handler answers once, on the response it
    was given, and returns; what it sends does not depend on the request.
    The status handler sends [{status: "OK", info}] with the server's
    debug information. *)
Theorem route_handlers_send_once (info : Server -> value)
    (h : route_handler) (srv : Server) (req : request) (res : response)
    (w : world) :
  exists payload,
    (forall req', run_route_handler info h srv req' res w =
       (Return tt,
        {| now := now w; trace := trace w ++ [ESend res payload] |})) /\
    (h = _getServerStatus ->
     payload = VObject ObjectProto
                 [("status", VStr "OK"); ("info", info srv)]).
Proof.
  destruct h; eexists;
    (split; [intros req'; reflexivity
            | intros H; first [reflexivity | discriminate H]]).
Qed.

